(** * Billing: subscription state, limits, Stripe webhooks and commands

    A shallow embedding of the billing application:
    - [billing/tasks.py]      : [process_stripe_event]
    - [billing/views/api.py]  : the subscription command views
    - [example/views.py]      : [ProfileView.state_note]
    together with the parts of [billing/models.py] these call
    ([Customer.state], [Customer.get_limit], [Customer.cancel_subscription],
    the payment-state check constraint), which are written down from the
    specification and marked as such.

    Conventions.
    - A Python value coming out of a [JSONField] or out of the Stripe client is
      a [json] tree.  Numbers are integers (Stripe timestamps are whole epoch
      seconds).
    - A Python exception is a value of [exn]; a call that may raise returns a
      [result].  Code that writes to the database before raising keeps what it
      wrote: stateful code lives in the monad [M S A := S -> S * result A].
    - A database table is a [gmap] from primary key to row.  A model instance
      held in a local variable is the pair of its primary key and its fields.
    - A timestamp is a number of seconds since the epoch, in UTC. *)

From Stdlib Require Import ZArith String List Lia.
From stdpp Require Import base option gmap strings list fin_maps.

Open Scope string_scope.
Open Scope Z_scope.

(* ===================================================================== *)
(** ** Python values and exceptions *)
(* ===================================================================== *)

#[warnings="-register-all"]
Inductive json : Type :=
| JNull
| JBool (b : bool)
| JNum (z : Z)
| JStr (s : string)
| JList (items : list json)
| JObj (fields : list (string * json)).

Inductive exn : Type :=
| KeyError (key : json)
| TypeError
| IndexError
| ValueError
| OverflowError
| OSError
| ObjectDoesNotExist
| MultipleObjectsReturned
| IntegrityError
| ValidationError (detail : string)
| CardError (message : string)
| OtherError (name : string).

Inductive result (A : Type) : Type :=
| Ok (a : A)
| Raise (e : exn).
Arguments Ok {A} a.
Arguments Raise {A} e.

(** What the interpreter renders as text and what this development does not
    look into: [str(v)] of a value that is not a string, and the text of
    [traceback.format_exc()] for the exception being handled. *)
Class PyRuntime : Type := {
  py_str : json -> string;
  format_exc : exn -> string
}.

(** [x == "lit"] for a value [x] taken out of a payload. *)
Definition eq_str (x : json) (lit : string) : bool :=
  match x with
  | JStr s => String.eqb s lit
  | _ => false
  end.

Fixpoint assoc (k : string) (kvs : list (string * json)) : option json :=
  match kvs with
  | [] => None
  | (k', v) :: rest => if String.eqb k k' then Some v else assoc k rest
  end.

(** [x[k]] for a string key [k]. *)
Definition getitem (x : json) (k : string) : result json :=
  match x with
  | JObj kvs =>
      match assoc k kvs with
      | Some v => Ok v
      | None => Raise (KeyError (JStr k))
      end
  | _ => Raise TypeError
  end.

(** [x[0]]. *)
Definition getitem0 (x : json) : result json :=
  match x with
  | JList (v :: _) => Ok v
  | JList [] => Raise IndexError
  | JStr (String c _) => Ok (JStr (String c EmptyString))
  | JStr EmptyString => Raise IndexError
  | JObj _ => Raise (KeyError (JNum 0))
  | _ => Raise TypeError
  end.

(** [datetime.fromtimestamp(x, tz=timezone.utc)] on an integer number of
    seconds (a boolean is the integer 0 or 1).  The result is the same
    instant, kept as seconds since the epoch.  CPython on a 64-bit Linux
    refuses an argument in three steps:
    - outside the platform's [time_t]: OverflowError;
    - inside it, but beyond what [gmtime] can break down (a year that does
      not fit a C int): OSError;
    - otherwise, a year outside 1..9999: ValueError.
    Anything that is no number is a TypeError.  Numbers of the embedding are
    integers, so a timestamp with a fractional part is outside its domain. *)
Definition MIN_TIMESTAMP : Z := -62135596800.
Definition MAX_TIMESTAMP : Z := 253402300799.
Definition MIN_GMTIME : Z := -67768040609740800.
Definition MAX_GMTIME : Z := 67768036191676799.
Definition MIN_TIME_T : Z := - 2 ^ 63.
Definition MAX_TIME_T : Z := 2 ^ 63 - 1.

Definition fromtimestamp (x : json) : result Z :=
  let in_range z :=
    if negb ((MIN_TIME_T <=? z) && (z <=? MAX_TIME_T)) then Raise OverflowError
    else if negb ((MIN_GMTIME <=? z) && (z <=? MAX_GMTIME)) then Raise OSError
    else if negb ((MIN_TIMESTAMP <=? z) && (z <=? MAX_TIMESTAMP)) then Raise ValueError
    else Ok z in
  match x with
  | JNum z => in_range z
  | JBool b => Ok (if b then 1 else 0)
  | _ => Raise TypeError
  end.

(** Truth value of an optional string ([None] and [""] are false). *)
Definition truthy (s : option string) : bool :=
  match s with
  | Some (String _ _) => true
  | _ => false
  end.

(* ===================================================================== *)
(** ** The state-and-exception monad *)
(* ===================================================================== *)

Definition M (S A : Type) : Type := S -> S * result A.

Definition ret {S A} (a : A) : M S A := fun s => (s, Ok a).

Definition bind {S A B} (m : M S A) (k : A -> M S B) : M S B :=
  fun s =>
    match m s with
    | (s', Ok a) => k a s'
    | (s', Raise e) => (s', Raise e)
    end.

Definition raise {S A} (e : exn) : M S A := fun s => (s, Raise e).

Definition lift {S A} (r : result A) : M S A := fun s => (s, r).

Definition gets {S A} (f : S -> A) : M S A := fun s => (s, Ok (f s)).

Definition modify {S} (f : S -> S) : M S unit := fun s => (f s, Ok tt).

(** [try: body  except <pred> as e: handler e]; an exception the clause does
    not name goes on. *)
Definition try_except {S A} (body : M S A) (catches : exn -> bool)
    (handler : exn -> M S A) : M S A :=
  fun s =>
    match body s with
    | (s', Ok a) => (s', Ok a)
    | (s', Raise e) => if catches e then handler e s' else (s', Raise e)
    end.

(** [try: body  finally: final]. *)
Definition try_finally {S A} (body : M S A) (final : M S unit) : M S A :=
  fun s =>
    match body s with
    | (s', r) =>
        match final s' with
        | (s'', Ok _) => (s'', r)
        | (s'', Raise e) => (s'', Raise e)
        end
    end.

(** stdpp's notations: [x ← m; k] and [m;; k]. *)
#[global] Instance M_ret {S} : MRet (M S) := fun A a => ret a.
#[global] Instance M_bind {S} : MBind (M S) := fun A B k m => bind m k.

(* ===================================================================== *)
(** ** billing/models.py *)
(* ===================================================================== *)

Module PlanType.
Inductive t : Type := FREE_DEFAULT | FREE_PRIVATE | PAID_PUBLIC.
Definition eqb (a b : t) : bool :=
  match a, b with
  | FREE_DEFAULT, FREE_DEFAULT | FREE_PRIVATE, FREE_PRIVATE
  | PAID_PUBLIC, PAID_PUBLIC => true
  | _, _ => false
  end.
End PlanType.

Module PaymentState.
Inductive t : Type := OK | OFF | REQUIRES_PAYMENT_METHOD | ERROR.
Definition eqb (a b : t) : bool :=
  match a, b with
  | OK, OK | OFF, OFF | REQUIRES_PAYMENT_METHOD, REQUIRES_PAYMENT_METHOD
  | ERROR, ERROR => true
  | _, _ => false
  end.
End PaymentState.

Module Status.
Inductive t : Type := NEW | PENDING | PROCESSED | ERROR.
End Status.

Record Plan : Type := {
  plan_pk : Z;
  plan_type : PlanType.t;
  price_id : option string
}.

Record Customer : Type := {
  customer_id : option string;
  subscription_id : option string;
  payment_state : PaymentState.t;
  current_period_end : option Z;
  plan : Plan;
  cc_info : json
}.

Record StripeEvent : Type := {
  type : string;
  payload : json;
  status : Status.t;
  info : option string
}.

Inductive level : Type := DEBUG | INFO | ERROR | EXCEPTION.

(** The database, and the log the module-level [logger] writes to. *)
Record store : Type := {
  customers : gmap Z Customer;
  events : gmap string StripeEvent;
  limits : gmap string Z;
  plan_limits : gmap (Z * string) Z;
  free_default : Z;
  log : list (level * string)
}.

Definition set_customers (f : gmap Z Customer -> gmap Z Customer) (st : store) : store :=
  {| customers := f (customers st); events := events st; limits := limits st;
     plan_limits := plan_limits st; free_default := free_default st; log := log st |}.

Definition set_events (f : gmap string StripeEvent -> gmap string StripeEvent)
    (st : store) : store :=
  {| customers := customers st; events := f (events st); limits := limits st;
     plan_limits := plan_limits st; free_default := free_default st; log := log st |}.

Definition add_log (l : level) (msg : string) (st : store) : store :=
  {| customers := customers st; events := events st; limits := limits st;
     plan_limits := plan_limits st; free_default := free_default st;
     log := log st ++ [(l, msg)] |}.

(** Field setters of the two model instances. *)
Definition with_customer_id (v : option string) (c : Customer) : Customer :=
  {| customer_id := v; subscription_id := subscription_id c;
     payment_state := payment_state c; current_period_end := current_period_end c;
     plan := plan c; cc_info := cc_info c |}.

Definition with_subscription_id (v : option string) (c : Customer) : Customer :=
  {| customer_id := customer_id c; subscription_id := v;
     payment_state := payment_state c; current_period_end := current_period_end c;
     plan := plan c; cc_info := cc_info c |}.

Definition with_payment_state (v : PaymentState.t) (c : Customer) : Customer :=
  {| customer_id := customer_id c; subscription_id := subscription_id c;
     payment_state := v; current_period_end := current_period_end c;
     plan := plan c; cc_info := cc_info c |}.

Definition with_current_period_end (v : option Z) (c : Customer) : Customer :=
  {| customer_id := customer_id c; subscription_id := subscription_id c;
     payment_state := payment_state c; current_period_end := v;
     plan := plan c; cc_info := cc_info c |}.

Definition with_plan (v : Plan) (c : Customer) : Customer :=
  {| customer_id := customer_id c; subscription_id := subscription_id c;
     payment_state := payment_state c; current_period_end := current_period_end c;
     plan := v; cc_info := cc_info c |}.

Definition with_cc_info (v : json) (c : Customer) : Customer :=
  {| customer_id := customer_id c; subscription_id := subscription_id c;
     payment_state := payment_state c; current_period_end := current_period_end c;
     plan := plan c; cc_info := v |}.

Definition with_status (v : Status.t) (e : StripeEvent) : StripeEvent :=
  {| type := type e; payload := payload e; status := v; info := info e |}.

Definition with_info (v : option string) (e : StripeEvent) : StripeEvent :=
  {| type := type e; payload := payload e; status := status e; info := v |}.

(** [Model.objects.get(<condition>)]: the one row satisfying the condition. *)
Definition objects_get {K A} `{Countable K} (cond : A -> bool) (table : gmap K A)
    : result (K * A) :=
  match map_to_list (filter (fun row : K * A => cond row.2 = true) table) with
  | [] => Raise ObjectDoesNotExist
  | [row] => Ok row
  | _ :: _ :: _ => Raise MultipleObjectsReturned
  end.

(** The condition [field=value] on a nullable [CharField]: [None] selects the
    rows where the column is null, a string compares exactly, anything else is
    compared through its [str()]. *)
Definition field_exact `{PyRuntime} (value : json) (column : option string) : bool :=
  match value, column with
  | JNull, None => true
  | JNull, Some _ => false
  | _, None => false
  | JStr s, Some s' => String.eqb s s'
  | v, Some s' => String.eqb (py_str v) s'
  end.

(** Modelled from the spec: the check constraint of [Customer] declared in
    [billing/models.py], which is not among the sources ("[paymentState != OFF]
    implies [subscriptionId] is present. Enforced at the storage layer";
    [test_customer_payment_state_constraint] expects [IntegrityError]). *)
Definition payment_state_constraint (c : Customer) : bool :=
  PaymentState.eqb (payment_state c) PaymentState.OFF
  || bool_decide (is_Some (subscription_id c)).

(** [customer.save()] for an instance that came out of the table. *)
Definition Customer_save (inst : Z * Customer) : M store unit :=
  fun st =>
    if payment_state_constraint inst.2
    then (set_customers (insert inst.1 inst.2) st, Ok tt)
    else (st, Raise IntegrityError).

(** [event.save()]. *)
Definition StripeEvent_save (event_id : string) (event : StripeEvent) : M store unit :=
  modify (set_events (insert event_id event)).

Definition logger (l : level) (msg : string) : M store unit :=
  modify (add_log l msg).

(* --------------------------------------------------------------------- *)
(** *** [Customer.state] *)

Definition absent (c : Customer) : bool :=
  match current_period_end c with None => true | Some _ => false end.

(** "a period is expired if [currentPeriodEnd] is present and
    [currentPeriodEnd <= now]". *)
Definition expired (c : Customer) (now : Z) : bool :=
  match current_period_end c with Some t => t <=? now | None => false end.

Definition not_expired (c : Customer) (now : Z) : bool :=
  match current_period_end c with Some t => now <? t | None => false end.

(** Modelled from the spec: the expiry test of section 4.1, step 2, which
    section 4.2 reuses.  A PAID_PUBLIC plan without a period end counts as
    expired, a FREE_PRIVATE plan without one does not, a FREE_DEFAULT plan
    never lapses. *)
Definition lapsed (c : Customer) (now : Z) : bool :=
  match plan_type (plan c) with
  | PlanType.PAID_PUBLIC => absent c || expired c now
  | PlanType.FREE_PRIVATE => expired c now
  | PlanType.FREE_DEFAULT => false
  end.

Definition has_plan (ty : PlanType.t) (c : Customer) : bool :=
  PlanType.eqb (plan_type (plan c)) ty.

Definition has_payment (ps : PaymentState.t) (c : Customer) : bool :=
  PaymentState.eqb (payment_state c) ps.

Definition has_subscription (c : Customer) : bool :=
  bool_decide (is_Some (subscription_id c)).

(** The bucket the FREE_DEFAULT rows apply to: the customer is on the
    FREE_DEFAULT plan, or on a plan that has lapsed. *)
Definition free_default_bucket (c : Customer) (now : Z) : bool :=
  has_plan PlanType.FREE_DEFAULT c || lapsed c now.

Record rule : Type := {
  applies : Customer -> Z -> bool;
  label : string
}.

(** Modelled from the spec: the decision table of section 4.1, one [rule] per
    row and in the order of the table ("most specific first"); [billing/models.py],
    where [Customer.state] is defined, is not among the sources.  The
    FREE_DEFAULT rows are read on the bucket after the expiry fall-back of
    step 2, the other rows on the plan type.  The row for [paid.will_cancel]
    is read with the subscription still present, as section 4.4 (Cancel) says
    produces it; with the subscription cleared and the period still running the
    label is [paid.canceled], as the scenario of section 8 says. *)
Definition state_table : list rule :=
  [ {| applies := fun c now =>
         free_default_bucket c now && has_payment PaymentState.OFF c
         && absent c && negb (has_subscription c);
       label := "free_default.new" |};
    {| applies := fun c now =>
         free_default_bucket c now && has_payment PaymentState.OFF c
         && absent c && has_subscription c;
       label := "free_default.canceled.incomplete" |};
    {| applies := fun c now =>
         free_default_bucket c now && has_payment PaymentState.OFF c
         && expired c now;
       label := "free_default.canceled" |};
    {| applies := fun c now =>
         free_default_bucket c now
         && has_payment PaymentState.REQUIRES_PAYMENT_METHOD c && absent c;
       label := "free_default.incomplete.requires_payment_method" |};
    {| applies := fun c now =>
         free_default_bucket c now
         && has_payment PaymentState.REQUIRES_PAYMENT_METHOD c && expired c now;
       label := "free_default.past_due.requires_payment_method" |};
    {| applies := fun c now =>
         has_plan PlanType.PAID_PUBLIC c && has_payment PaymentState.OK c
         && not_expired c now;
       label := "paid.paying" |};
    {| applies := fun c now =>
         has_plan PlanType.PAID_PUBLIC c && has_payment PaymentState.OFF c
         && not_expired c now && has_subscription c;
       label := "paid.will_cancel" |};
    {| applies := fun c now =>
         has_plan PlanType.PAID_PUBLIC c && has_payment PaymentState.OFF c
         && not_expired c now && negb (has_subscription c);
       label := "paid.canceled" |};
    {| applies := fun c now =>
         has_plan PlanType.PAID_PUBLIC c && has_payment PaymentState.OFF c
         && expired c now;
       label := "free_default.canceled" |};
    {| applies := fun c now =>
         has_plan PlanType.PAID_PUBLIC c
         && has_payment PaymentState.REQUIRES_PAYMENT_METHOD c && not_expired c now;
       label := "paid.past_due.requires_payment_method" |};
    {| applies := fun c now =>
         has_plan PlanType.PAID_PUBLIC c && expired c now
         && negb (has_payment PaymentState.OFF c);
       label := "paid.canceled" |};
    {| applies := fun c now => has_plan PlanType.FREE_PRIVATE c && absent c;
       label := "free_private.indefinite" |};
    {| applies := fun c now => has_plan PlanType.FREE_PRIVATE c && not_expired c now;
       label := "free_private.will_expire" |};
    {| applies := fun c now => has_plan PlanType.FREE_PRIVATE c && expired c now;
       label := "free_default.canceled" |} ].

(** Modelled from the spec: [Customer.state] ([deriveState]), the label of the
    first row of [state_table] that applies, ["unknown"] when none does. *)
Definition state (c : Customer) (now : Z) : string :=
  match List.find (fun r => applies r c now) state_table with
  | Some r => label r
  | None => "unknown"
  end.

(* --------------------------------------------------------------------- *)
(** *** [Customer.get_limit] *)

(** Modelled from the spec: step 1 of section 4.2; the primary key of the plan
    that governs the limits right now. *)
Definition effective_plan (st : store) (c : Customer) (now : Z) : Z :=
  if lapsed c now then free_default st else plan_pk (plan c).

(** Modelled from the spec: [Customer.get_limit] ([getLimit]) of section 4.2,
    defined in [billing/models.py], which is not among the sources.  [limits]
    maps the name of a Limit to its default, [plan_limits] a plan and a limit
    name to the PlanLimit value.  The spec's NotFoundError is Django's
    [ObjectDoesNotExist] ([test_get_limit_nonexist]). *)
Definition get_limit (st : store) (c : Customer) (limit_name : string) (now : Z)
    : result Z :=
  match limits st !! limit_name with
  | None => Raise ObjectDoesNotExist
  | Some default =>
      match plan_limits st !! (effective_plan st c now, limit_name) with
      | Some value => Ok value
      | None => Ok default
      end
  end.

(* ===================================================================== *)
(** ** billing/tasks.py *)
(* ===================================================================== *)

(** The local variable [event] next to the database. *)
Record frame : Type := {
  db : store;
  event : StripeEvent
}.

Definition on_db {A} (m : M store A) : M frame A :=
  fun fr =>
    match m (db fr) with
    | (st, r) => ({| db := st; event := event fr |}, r)
    end.

Definition set_event (f : StripeEvent -> StripeEvent) : M frame unit :=
  modify (fun fr => {| db := db fr; event := f (event fr) |}).

Definition event_save (event_id : string) : M frame unit :=
  fun fr => on_db (StripeEvent_save event_id (event fr)) fr.

Definition with_frame {A} (ev : StripeEvent) (m : M frame A) : M store A :=
  fun st =>
    match m {| db := st; event := ev |} with
    | (fr, r) => (db fr, r)
    end.

(** [except Exception]: every exception of [exn] derives from [Exception]. *)
Definition is_Exception (e : exn) : bool := true.

Definition card_fields : list string := ["brand"; "last4"; "exp_month"; "exp_year"].

Definition is_card_field (k : json) : bool :=
  match k with
  | JStr s => bool_decide (s ∈ card_fields)
  | _ => false
  end.

(** [{k: cc_info[k] for k in cc_info if k in ("brand", "last4", "exp_month",
    "exp_year")}].  Iterating a dict yields its keys; iterating a list yields
    its items, and indexing the list with one of the four strings is a
    [TypeError]; iterating a string yields single characters, none of which is
    one of the four names; other values are not iterable. *)
Definition card_summary (cc_info : json) : result json :=
  match cc_info with
  | JObj kvs => Ok (JObj (List.filter (fun kv => is_card_field (JStr kv.1)) kvs))
  | JList items => if existsb is_card_field items then Raise TypeError else Ok (JObj [])
  | JStr _ => Ok (JObj [])
  | _ => Raise TypeError
  end.

Section tasks.
Context `{rt : PyRuntime}.

(** [f"{x}"] *)
Definition fmt (x : json) : string :=
  match x with
  | JStr s => s
  | _ => py_str x
  end.

Definition Customer_objects_get (cond : Customer -> bool) : M frame (Z * Customer) :=
  on_db (fun st => (st, objects_get cond (customers st))).

(** The body of the [try] block of [process_stripe_event]. *)
Definition dispatch (now : Z) (event_id : string) : M frame unit :=
  set_event (with_status Status.PENDING);;
  event_save event_id;;
  ty ← gets (fun fr => type (event fr));
  pl ← gets (fun fr => payload (event fr));
  (* Successful renewal webhook *)
  if String.eqb ty "invoice.paid" then
    data ← lift (getitem pl "data");
    invoice ← lift (getitem data "object");
    billing_reason ← lift (getitem invoice "billing_reason");
    (if eq_str billing_reason "subscription_cycle" then
       on_db (logger INFO ("StripeEvent.id=" +:+ event_id +:+
         " StripeEvent.type=invoice.paid processing renewal since billing_reason=subscription_cycle"));;
       sub ← lift (getitem invoice "subscription");
       customer ← Customer_objects_get (fun c => field_exact sub (subscription_id c));
       lines ← lift (getitem invoice "lines");
       lines_data ← lift (getitem lines "data");
       line ← lift (getitem0 lines_data);
       period ← lift (getitem line "period");
       period_end_ts ← lift (getitem period "end");
       period_end ← lift (fromtimestamp period_end_ts);
       let customer := (customer.1, with_current_period_end (Some period_end) customer.2) in
       on_db (Customer_save customer)
     else
       on_db (logger INFO ("StripeEvent.id=" +:+ event_id +:+
         " StripeEvent.type=invoice.paid taking no action because billing_reason is not subscription_cycle"));;
       set_event (with_info (Some "Subscription creation webhook. No action was taken.")));;
    set_event (with_status Status.PROCESSED)
  (* Payment failure webhooks *)
  else if String.eqb ty "customer.subscription.updated"
          || String.eqb ty "customer.subscription.deleted" then
    data ← lift (getitem pl "data");
    subscription ← lift (getitem data "object");
    sub ← lift (getitem subscription "id");
    customer ← Customer_objects_get (fun c => field_exact sub (subscription_id c));
    sub_status ← lift (getitem subscription "status");
    (if eq_str sub_status "past_due" then
       let customer :=
         (customer.1, with_payment_state PaymentState.REQUIRES_PAYMENT_METHOD customer.2) in
       on_db (Customer_save customer)
     else if eq_str sub_status "canceled" then
       let customer := (customer.1, with_subscription_id None customer.2) in
       let customer := (customer.1, with_payment_state PaymentState.OFF customer.2) in
       on_db (Customer_save customer)
     else if eq_str sub_status "incomplete_expired" then
       (if negb (String.eqb (state customer.2 now)
                   "free_default.incomplete.requires_payment_method")
        then on_db (logger ERROR ("StripeEvent.id=" +:+ event_id +:+
               " receiving incomplete_expired on a Customer that does not have the proper state."))
        else mret tt);;
       let customer := (customer.1, with_subscription_id None customer.2) in
       let customer := (customer.1, with_payment_state PaymentState.OFF customer.2) in
       on_db (Customer_save customer)
     else
       on_db (logger INFO ("StripeEvent.id=" +:+ event_id +:+
         " StripeEvent.type=customer.subscription.updated taking no action " +:+
         "because status is " +:+ fmt sub_status +:+ " and not actionable"));;
       set_event (with_info (Some "Payload 'status' is not actionable. No action was taken.")));;
    set_event (with_status Status.PROCESSED)
  (* Payment method automatically updated by card network *)
  else if String.eqb ty "payment_method.automatically_updated" then
    data ← lift (getitem pl "data");
    payment_method ← lift (getitem data "object");
    cus ← lift (getitem payment_method "customer");
    customer ← Customer_objects_get (fun c => field_exact cus (customer_id c));
    card ← lift (getitem payment_method "card");
    summary ← lift (card_summary card);
    let customer := (customer.1, with_cc_info summary customer.2) in
    on_db (Customer_save customer);;
    set_event (with_status Status.PROCESSED)
  else
    on_db (logger INFO ("StripeEvent.id=" +:+ event_id +:+ " StripeEvent.type=" +:+ ty +:+
      " StripeEvent type not recognized"));;
    set_event (with_status Status.ERROR);;
    set_event (with_info (Some ("StripeEvent type '" +:+ ty +:+ "' not recognized.")))
.

(** The [except Exception as e] clause. *)
Definition on_exception (event_id : string) (e : exn) : M frame unit :=
  on_db (logger EXCEPTION ("StripeEvent.id=" +:+ event_id +:+ " in error state"));;
  set_event (with_status Status.ERROR);;
  set_event (with_info (Some (format_exc e))).

(** The [finally] clause. *)
Definition finally_save (event_id : string) : M frame unit :=
  on_db (logger DEBUG ("StripeEvent.id=" +:+ event_id +:+ " Saving StripeEvent"));;
  event_save event_id.

(** Handler for Stripe Events.  [now] is the clock [Customer.state] reads. *)
Definition process_stripe_event (now : Z) (event_id : string) : M store unit :=
  logger INFO ("StripeEvent.id=" +:+ event_id +:+ " process_stripe_event task started");;
  table ← gets events;
  match table !! event_id with
  | None => raise ObjectDoesNotExist
  | Some ev =>
      with_frame ev
        (try_finally
           (try_except (dispatch now event_id) is_Exception (on_exception event_id))
           (finally_save event_id))
  end.

End tasks.

(* ===================================================================== *)
(** ** billing/views/api.py *)
(* ===================================================================== *)

(** What [stripe.Subscription.create] returns, as far as the view reads it. *)
Record Subscription : Type := {
  sub_id : string;
  sub_status : string;
  sub_current_period_end : json
}.

(** [billing/services.py] is not among the sources.  Each function calls the
    payment processor; its outcome for given arguments is whatever the
    processor answers, so the module is an interface.  The views below read
    nothing but the returned values. *)
Class Services : Type := {
  (** the id of the Stripe customer found or created, [None] when Stripe
      could not be reached *)
  stripe_create_customer : Z -> result (option string);
  stripe_create_subscription :
    option string -> string -> option string -> result Subscription;
  stripe_customer_sync_metadata_email : Z -> option string -> result unit;
  stripe_replace_card : option string -> option string -> string -> result unit;
  stripe_retry_latest_invoice : option string -> result json;
  stripe_reactivate_subscription : option string -> result unit;
  stripe_modify_subscription : option string -> result unit
}.

(** An authenticated request: the primary key of [request.user] (and of its
    customer) and [request.data.get("payment_method_id")]. *)
Record request : Type := {
  user : Z;
  payment_method_id : option string
}.

Definition is_CardError (e : exn) : bool :=
  match e with
  | CardError _ => true
  | _ => false
  end.

(** [raise ValidationError(e.error.message)] in an [except CardError as e]. *)
Definition card_error_to_validation {S A} (e : exn) : M S A :=
  match e with
  | CardError message => raise (ValidationError message)
  | _ => raise e
  end.

(** [request.user.customer] *)
Definition user_customer (req : request) : M store (Z * Customer) :=
  table ← gets customers;
  match table !! user req with
  | Some c => mret (user req, c)
  | None => raise ObjectDoesNotExist
  end.

Section views.
Context `{rt : PyRuntime} `{svc : Services}.

(** [CreateSubscriptionAPIView.post].  [serializer] is the outcome of
    [CreateSubscriptionSerializer(...).is_valid(raise_exception=True)]
    ([billing/serializers.py] is not among the sources): the validated
    [payment_method_id] and [serializer.plan], or the [ValidationError]. *)
Definition CreateSubscriptionAPIView_post (req : request)
    (serializer : result (string * Plan)) : M store Z :=
  validated ← lift serializer;
  customer ← user_customer req;
  (* If the customer doesn't have a Stripe customer_id, create a new Stripe Customer. *)
  customer ←
    (if negb (truthy (customer_id customer.2)) then
       stripe_customer ← lift (stripe_create_customer (user req));
       match stripe_customer with
       | None =>
           raise (ValidationError
             "These was a problem connecting to Stripe. Please try again.")
       | Some id =>
           let customer := (customer.1, with_customer_id (Some id) customer.2) in
           Customer_save customer;;
           mret customer
       end
     else mret customer);
  subscription ←
    try_except
      (lift (stripe_create_subscription (customer_id customer.2) validated.1
               (price_id validated.2)))
      is_CardError card_error_to_validation;
  let customer := (customer.1, with_subscription_id (Some (sub_id subscription)) customer.2) in
  let customer := (customer.1, with_plan validated.2 customer.2) in
  lift (stripe_customer_sync_metadata_email (user req) (customer_id customer.2));;
  if String.eqb (sub_status subscription) "active" then
    period_end ← lift (fromtimestamp (sub_current_period_end subscription));
    let customer := (customer.1, with_current_period_end (Some period_end) customer.2) in
    let customer := (customer.1, with_payment_state PaymentState.OK customer.2) in
    Customer_save customer;;
    mret 201
  else
    logger INFO ("User.id=" +:+ py_str (JNum (user req)) +:+
      " payment failed in CreateSubscriptionAPIView");;
    let customer := (customer.1, with_current_period_end None customer.2) in
    let customer :=
      (customer.1, with_payment_state PaymentState.REQUIRES_PAYMENT_METHOD customer.2) in
    Customer_save customer;;
    raise (ValidationError
      "Payment could not be processed. Please try again or use another card.").

(** [CureFailedCardAPIView.post] *)
Definition CureFailedCardAPIView_post (req : request) : M store Z :=
  match payment_method_id req with
  | None => raise (ValidationError "No payment_method_id provided.")
  | Some pm =>
      customer ← user_customer req;
      (* Make sure there is a subscription and the payment state is set to
         PAYMENT_REQUIRES_PAYMENT_METHOD *)
      if truthy (subscription_id customer.2)
         && has_payment PaymentState.REQUIRES_PAYMENT_METHOD customer.2 then
        try_except
          (lift (stripe_replace_card (customer_id customer.2)
                   (subscription_id customer.2) pm);;
           Customer_save customer;;
           invoice ← lift (stripe_retry_latest_invoice (customer_id customer.2));
           invoice_status ← lift (getitem invoice "status");
           if eq_str invoice_status "paid" then
             lines ← lift (getitem invoice "lines");
             lines_data ← lift (getitem lines "data");
             line ← lift (getitem0 lines_data);
             period ← lift (getitem line "period");
             period_end_ts ← lift (getitem period "end");
             period_end ← lift (fromtimestamp period_end_ts);
             let customer :=
               (customer.1, with_current_period_end (Some period_end) customer.2) in
             let customer := (customer.1, with_payment_state PaymentState.OK customer.2) in
             Customer_save customer
           else mret tt)
          is_CardError card_error_to_validation;;
        mret 201
      else
        raise (ValidationError "You cannot cure a failed payment for this customer.")
  end.

(** Modelled from the spec: [Customer.cancel_subscription(immediate=False)]
    of [billing/models.py], which is not among the sources (section 4.4,
    Cancel: nothing is changed and failure is signalled when the payment is
    already OFF; otherwise the remote subscription is modified and
    [paymentState] becomes OFF, [subscriptionId] and [currentPeriodEnd] are
    kept). *)
Definition cancel_subscription (customer : Z * Customer) : M store bool :=
  if has_payment PaymentState.OFF customer.2 then mret false
  else
    lift (stripe_modify_subscription (subscription_id customer.2));;
    let customer := (customer.1, with_payment_state PaymentState.OFF customer.2) in
    Customer_save customer;;
    mret true.

(** [CancelSubscriptionAPIView.post] *)
Definition CancelSubscriptionAPIView_post (req : request) : M store Z :=
  customer ← user_customer req;
  canceled ← cancel_subscription customer;
  if negb canceled then raise (ValidationError "No active subscription to cancel.")
  else mret 201.

(** [ReactivateSubscriptionAPIView.post] *)
Definition ReactivateSubscriptionAPIView_post (now : Z) (req : request) : M store Z :=
  customer ← user_customer req;
  (* Make sure there is an active subscription that will be canceled at the
     end of the period *)
  if String.eqb (state customer.2 now) "paid.will_cancel" then
    lift (stripe_reactivate_subscription (subscription_id customer.2));;
    let customer := (customer.1, with_payment_state PaymentState.OK customer.2) in
    Customer_save customer;;
    mret 201
  else raise (ValidationError "You cannot reactivate this subscription.").

(** [ReplaceCardAPIView.post] *)
Definition ReplaceCardAPIView_post (req : request) : M store Z :=
  match payment_method_id req with
  | None => raise (ValidationError "No payment_method_id provided.")
  | Some pm =>
      customer ← user_customer req;
      (* Make sure there is an active subscription *)
      if truthy (subscription_id customer.2)
         && negb (has_payment PaymentState.OFF customer.2) then
        try_except
          (lift (stripe_replace_card (customer_id customer.2)
                   (subscription_id customer.2) pm))
          is_CardError card_error_to_validation;;
        Customer_save customer;;
        mret 201
      else raise (ValidationError "You cannot replace card for this customer.")
  end.

End views.

(* ===================================================================== *)
(** ** example/views.py *)
(* ===================================================================== *)

(** [f"{customer.current_period_end}"]: the text of a datetime, or of [None],
    is the interpreter's. *)
Definition fmt_datetime `{PyRuntime} (t : option Z) : string :=
  match t with
  | Some z => py_str (JNum z)
  | None => py_str JNull
  end.

Definition SUPPORT_NOTE : string :=
  "There is an issue with your subscription. Please contact support.".

(** [ProfileView.state_note]: convenience to avoid doing lots of logic in the
    template. *)
Definition state_note `{PyRuntime} (now : Z) (customer : Customer) : string :=
  let st := state customer now in
  let period_end := fmt_datetime (current_period_end customer) in
  if String.eqb st "free_default.new" then ""
  else if String.eqb st "free_default.canceled" then
    "Subscription expired on " +:+ period_end
  else if String.eqb st "free_default.canceled.incomplete" then ""
  else if String.eqb st "paid.paying" then
    "Subscription renews on " +:+ period_end +:+ "."
  else if String.eqb st "paid.will_cancel" then
    "Subscription cancelled. Access available until " +:+ period_end +:+ "."
  else if String.eqb st "paid.canceled" then
    "Subscription will expire on " +:+ period_end +:+ "."
  else if String.eqb st "free_private.indefinite" then "Staff plan, no expiration."
  else if String.eqb st "free_private.will_expire" then
    "Staff plan expires on " +:+ period_end +:+ "."
  else if bool_decide (st ∈ [ "free_default.past_due.requires_payment_method";
                              "free_default.incomplete.requires_payment_method";
                              "paid.past_due.requires_payment_method" ]) then
    "There is a problem with your credit card. Please provide a new one or try again."
  else SUPPORT_NOTE.

(* ===================================================================== *)
(** ** Specification vocabulary *)
(* ===================================================================== *)

(** Running [m] from [s] ends in a state and an outcome that satisfy [Q]. *)
Definition wp {S A} (m : M S A) (Q : S -> result A -> Prop) (s : S) : Prop :=
  Q (m s).1 (m s).2.

(** Row [k] is the one row of [table] that satisfies [cond]. *)
Definition matches_one {A} (cond : A -> bool) (table : gmap Z A) (k : Z) (row : A) : Prop :=
  table !! k = Some row /\ cond row = true
  /\ forall k' row', table !! k' = Some row' -> cond row' = true -> k' = k.

(** [payload["data"]["object"]] is [obj]. *)
Definition event_object (pl obj : json) : Prop :=
  exists data, getitem pl "data" = Ok data /\ getitem data "object" = Ok obj.

(** [invoice["lines"]["data"][0]["period"]["end"]] is the timestamp of [t]. *)
Definition invoice_period_end (invoice : json) (t : Z) : Prop :=
  exists lines lines_data line period ts,
    getitem invoice "lines" = Ok lines
    /\ getitem lines "data" = Ok lines_data
    /\ getitem0 lines_data = Ok line
    /\ getitem line "period" = Ok period
    /\ getitem period "end" = Ok ts
    /\ fromtimestamp ts = Ok t.

(** The event types [process_stripe_event] has a branch for. *)
Definition recognized_types : list string :=
  [ "invoice.paid"; "customer.subscription.updated"; "customer.subscription.deleted";
    "payment_method.automatically_updated" ].

(** The frame in which the [try] block of [process_stripe_event] starts. *)
Definition entry_frame (event_id : string) (st : store) (ev : StripeEvent) : frame :=
  {| db := add_log INFO
             ("StripeEvent.id=" +:+ event_id +:+ " process_stripe_event task started") st;
     event := ev |}.

(** The lookups of [process_stripe_event]. *)
Definition by_subscription `{PyRuntime} (sub : json) (c : Customer) : bool :=
  field_exact sub (subscription_id c).

Definition by_customer_id `{PyRuntime} (cus : json) (c : Customer) : bool :=
  field_exact cus (customer_id c).

(** The payload [pl] is a renewal that [process_stripe_event] applies on the
    Customer table [tbl]: it rewrites row [k] to [c']. *)
Definition renewal_of `{PyRuntime} (pl : json) (tbl : gmap Z Customer)
    (k : Z) (c' : Customer) : Prop :=
  exists invoice reason sub c t,
    event_object pl invoice
    /\ getitem invoice "billing_reason" = Ok reason
    /\ eq_str reason "subscription_cycle" = true
    /\ getitem invoice "subscription" = Ok sub
    /\ objects_get (by_subscription sub) tbl = Ok (k, c)
    /\ invoice_period_end invoice t
    /\ c' = with_current_period_end (Some t) c
    /\ payment_state_constraint c' = true.

(** Every row of the Customer table satisfies the check constraint. *)
Definition store_ok (st : store) : Prop :=
  map_Forall (fun _ c => payment_state_constraint c = true) (customers st).

(** One unit of work against the database: a write through the storage
    layer, one processed event, or one command, whatever the payment
    processor answers and whether or not the unit ends in an exception. *)
Inductive step `{PyRuntime} (st : store) : store -> Prop :=
| step_save inst :
    step st (Customer_save inst st).1
| step_event now event_id :
    step st (process_stripe_event now event_id st).1
| step_create (svc : Services) req serializer :
    step st (CreateSubscriptionAPIView_post req serializer st).1
| step_cure (svc : Services) req :
    step st (CureFailedCardAPIView_post req st).1
| step_cancel (svc : Services) req :
    step st (CancelSubscriptionAPIView_post req st).1
| step_reactivate (svc : Services) now req :
    step st (ReactivateSubscriptionAPIView_post now req st).1
| step_replace (svc : Services) req :
    step st (ReplaceCardAPIView_post req st).1.

(** The labels [Customer.state] can take besides ["unknown"]. *)
Definition state_labels : list string :=
  [ "free_default.new"; "free_default.canceled"; "free_default.canceled.incomplete";
    "paid.paying"; "paid.will_cancel"; "paid.canceled";
    "free_private.indefinite"; "free_private.will_expire";
    "free_default.past_due.requires_payment_method";
    "free_default.incomplete.requires_payment_method";
    "paid.past_due.requires_payment_method" ].

(** The expiry test of section 4.1 in words: the plan is PAID_PUBLIC and the
    period end is absent or not after [now], or the plan is FREE_PRIVATE and
    the period end is present and not after [now]. *)
Definition plan_expired (c : Customer) (now : Z) : Prop :=
  (plan_type (plan c) = PlanType.PAID_PUBLIC
   /\ (current_period_end c = None
       \/ exists t, current_period_end c = Some t /\ t <= now))
  \/ (plan_type (plan c) = PlanType.FREE_PRIVATE
      /\ exists t, current_period_end c = Some t /\ t <= now).

(* ===================================================================== *)
(** ** Fixtures, after billing/tests.py *)
(* ===================================================================== *)

Module Tests.

Definition runtime : PyRuntime :=
  {| py_str := fun _ => "<value>";
     format_exc := fun _ => "Traceback (most recent call last): ..." |}.

Definition NOW : Z := 1600000000.
Definition DAY : Z := 86400.

Definition free_default_plan : Plan :=
  {| plan_pk := 1; plan_type := PlanType.FREE_DEFAULT; price_id := None |}.
Definition paid_plan : Plan :=
  {| plan_pk := 2; plan_type := PlanType.PAID_PUBLIC; price_id := Some "price_1" |}.
Definition private_plan : Plan :=
  {| plan_pk := 3; plan_type := PlanType.FREE_PRIVATE; price_id := None |}.

(** [UserFactory()] *)
Definition new_customer : Customer :=
  {| customer_id := None; subscription_id := None;
     payment_state := PaymentState.OFF; current_period_end := None;
     plan := free_default_plan; cc_info := JNull |}.

(** [UserFactory(paying=True, customer__subscription_id="sub")] *)
Definition paying_customer : Customer :=
  {| customer_id := Some "cus_1"; subscription_id := Some "sub";
     payment_state := PaymentState.OK; current_period_end := Some (NOW + 5 * DAY);
     plan := paid_plan; cc_info := JNull |}.

(** [LimitTest.setUp], with the free-default override of
    [test_get_limit_expired_plan], for a customer [c] with primary key 1. *)
Definition limit_store (c : Customer) : store :=
  {| customers := {[ 1 := c ]};
     events := ∅;
     limits := {[ "Limit 1" := 99; "Limit 2" := 98; "Limit 3" := 97 ]};
     plan_limits := {[ (2, "Limit 1") := 1; (2, "Limit 2") := 2;
                       (3, "Limit 1") := 0; (1, "Limit 1") := 50 ]};
     free_default := 1;
     log := [] |}.

(** [StripeWebhookAPITest.setUp] and one posted event. *)
Definition webhook_store (c : Customer) (ty : string) (pl : json) : store :=
  {| customers := {[ 1 := c ]};
     events := {[ "evt_test" :=
                    {| type := ty; payload := pl; status := Status.NEW; info := None |} ]};
     limits := ∅; plan_limits := ∅; free_default := 1; log := [] |}.

Definition renewed_invoice : json :=
  JObj [ ("billing_reason", JStr "subscription_cycle");
         ("subscription", JStr "sub");
         ("lines", JObj [ ("data", JList [ JObj [ ("period",
            JObj [ ("end", JNum (NOW + 30 * DAY)) ]) ] ]) ]) ].

Definition created_invoice : json :=
  JObj [ ("billing_reason", JStr "subscription_create");
         ("subscription", JStr "sub") ].

Definition subscription_object (status : string) : json :=
  JObj [ ("id", JStr "sub"); ("status", JStr status) ].

Definition payload_of (object : json) : json :=
  JObj [ ("data", JObj [ ("object", object) ]) ].

Definition new_card : json :=
  JObj [ ("brand", JStr "amex"); ("exp_month", JNum 8); ("exp_year", JNum 2021);
         ("last4", JNum 1234) ].

(** A payment processor that declines the first charge and leaves the
    retried invoice open. *)
Definition declining : Services :=
  {| stripe_create_customer := fun _ => Ok (Some "cus_new");
     stripe_create_subscription := fun _ _ _ =>
       Ok {| sub_id := "sub_paid"; sub_status := "incomplete";
             sub_current_period_end := JNull |};
     stripe_customer_sync_metadata_email := fun _ _ => Ok tt;
     stripe_replace_card := fun _ _ _ => Ok tt;
     stripe_retry_latest_invoice := fun _ => Ok (JObj [ ("status", JStr "open") ]);
     stripe_reactivate_subscription := fun _ => Ok tt;
     stripe_modify_subscription := fun _ => Ok tt |}.

(** A payment processor that accepts the charge. *)
Definition accepting : Services :=
  {| stripe_create_customer := fun _ => Ok (Some "cus_new");
     stripe_create_subscription := fun _ _ _ =>
       Ok {| sub_id := "sub_paid"; sub_status := "active";
             sub_current_period_end := JNum (NOW + 30 * DAY) |};
     stripe_customer_sync_metadata_email := fun _ _ => Ok tt;
     stripe_replace_card := fun _ _ _ => Ok tt;
     stripe_retry_latest_invoice := fun _ =>
       Ok (JObj [ ("status", JStr "paid");
                  ("lines", JObj [ ("data", JList [ JObj [ ("period",
                     JObj [ ("end", JNum (NOW + 30 * DAY)) ]) ] ]) ]) ]);
     stripe_reactivate_subscription := fun _ => Ok tt;
     stripe_modify_subscription := fun _ => Ok tt |}.

Definition post (pm : option string) : request :=
  {| user := 1; payment_method_id := pm |}.

(** The customer of [test_create_subscription_failed_cure]. *)
Definition declined_customer : Customer :=
  with_payment_state PaymentState.REQUIRES_PAYMENT_METHOD
    (with_subscription_id (Some "sub_1") paying_customer).

(** The database after the webhook view handed the event to the task. *)
Definition run (c : Customer) (ty : string) (pl : json) : store :=
  (process_stripe_event (rt := runtime) NOW "evt_test" (webhook_store c ty pl)).1.

End Tests.

(* ===================================================================== *)
(** ** Reasoning rules for the monad and for the tables *)
(* ===================================================================== *)

Section wp_rules.
Context {S : Type}.

Lemma wp_ret {A} (a : A) (Q : S -> result A -> Prop) s :
  Q s (Ok a) -> wp (mret a) Q s.
Proof. done. Qed.

Lemma wp_raise {A} e (Q : S -> result A -> Prop) s :
  Q s (Raise e) -> wp (raise e) Q s.
Proof. done. Qed.

Lemma wp_lift {A} (r : result A) (Q : S -> result A -> Prop) s :
  Q s r -> wp (lift r) Q s.
Proof. done. Qed.

Lemma wp_gets {A} (f : S -> A) (Q : S -> result A -> Prop) s :
  Q s (Ok (f s)) -> wp (gets f) Q s.
Proof. done. Qed.

Lemma wp_modify (f : S -> S) (Q : S -> result unit -> Prop) s :
  Q (f s) (Ok tt) -> wp (modify f) Q s.
Proof. done. Qed.

Lemma wp_bind {A B} (m : M S A) (k : A -> M S B) (Q : S -> result B -> Prop) s :
  wp m (fun s' r => match r with
                    | Ok a => wp (k a) Q s'
                    | Raise e => Q s' (Raise e)
                    end) s ->
  wp (m ≫= k) Q s.
Proof.
  unfold wp, mbind, M_bind, bind. destruct (m s) as [s' [a|e]]; done.
Qed.

Lemma wp_try_except {A} (body : M S A) (catches : exn -> bool)
    (handler : exn -> M S A) (Q : S -> result A -> Prop) s :
  wp body (fun s' r => match r with
                       | Ok a => Q s' (Ok a)
                       | Raise e => if catches e then wp (handler e) Q s'
                                    else Q s' (Raise e)
                       end) s ->
  wp (try_except body catches handler) Q s.
Proof.
  unfold wp, try_except. destruct (body s) as [s' [a|e]]; simpl; [done|].
  by destruct (catches e).
Qed.

Lemma wp_try_finally {A} (body : M S A) (final : M S unit) (Q : S -> result A -> Prop) s :
  wp body (fun s' r => wp final (fun s'' r' => match r' with
                                               | Ok _ => Q s'' r
                                               | Raise e => Q s'' (Raise e)
                                               end) s') s ->
  wp (try_finally body final) Q s.
Proof.
  unfold wp, try_finally. destruct (body s) as [s' r]; simpl.
  by destruct (final s') as [s'' [[]|e]].
Qed.

End wp_rules.

Lemma wp_on_db {A} (m : M store A) (Q : frame -> result A -> Prop) fr :
  wp m (fun st r => Q {| db := st; event := event fr |} r) (db fr) ->
  wp (on_db m) Q fr.
Proof. unfold wp, on_db. by destruct (m (db fr)). Qed.

Lemma wp_set_event f (Q : frame -> result unit -> Prop) fr :
  Q {| db := db fr; event := f (event fr) |} (Ok tt) -> wp (set_event f) Q fr.
Proof. done. Qed.

Lemma wp_event_save id (Q : frame -> result unit -> Prop) fr :
  Q {| db := set_events (insert id (event fr)) (db fr); event := event fr |} (Ok tt) ->
  wp (event_save id) Q fr.
Proof. done. Qed.

Lemma wp_logger l msg (Q : store -> result unit -> Prop) st :
  Q (add_log l msg st) (Ok tt) -> wp (logger l msg) Q st.
Proof. done. Qed.

Lemma wp_Customer_save inst (Q : store -> result unit -> Prop) st :
  (payment_state_constraint inst.2 = true ->
   Q (set_customers (insert inst.1 inst.2) st) (Ok tt)) ->
  (payment_state_constraint inst.2 = false -> Q st (Raise IntegrityError)) ->
  wp (Customer_save inst) Q st.
Proof.
  unfold wp, Customer_save. destruct (payment_state_constraint inst.2); auto.
Qed.

Lemma wp_Customer_objects_get `{PyRuntime} cond (Q : frame -> result (Z * Customer) -> Prop) fr :
  Q fr (objects_get cond (customers (db fr))) ->
  wp (Customer_objects_get cond) Q fr.
Proof. unfold wp, Customer_objects_get, on_db. simpl. by destruct fr. Qed.

Lemma wp_with_frame {A} ev (m : M frame A) (Q : store -> result A -> Prop) st :
  wp m (fun fr r => Q (db fr) r) {| db := st; event := ev |} ->
  wp (with_frame ev m) Q st.
Proof. unfold wp, with_frame. by destruct (m _). Qed.

(** One rule per construct: the goal follows the program text. *)
Ltac wp_step :=
  lazymatch goal with
  | |- wp (mbind _ _) _ _ => apply wp_bind
  | |- wp (mret _) _ _ => apply wp_ret
  | |- wp (raise _) _ _ => apply wp_raise
  | |- wp (lift _) _ _ => apply wp_lift
  | |- wp (gets _) _ _ => apply wp_gets
  | |- wp (modify _) _ _ => apply wp_modify
  | |- wp (on_db _) _ _ => apply wp_on_db
  | |- wp (set_event _) _ _ => apply wp_set_event
  | |- wp (event_save _) _ _ => apply wp_event_save
  | |- wp (logger _ _) _ _ => apply wp_logger
  | |- wp (Customer_objects_get _) _ _ => apply wp_Customer_objects_get
  | |- wp (try_except _ _ _) _ _ => apply wp_try_except
  | |- wp (try_finally _ _) _ _ => apply wp_try_finally
  | |- wp (with_frame _ _) _ _ => apply wp_with_frame
  | |- wp (Customer_save _) _ _ => apply wp_Customer_save; intros ?
  | |- wp (if ?b then _ else _) _ _ => destruct b eqn:?
  | |- wp (match ?x with _ => _ end) _ _ => destruct x eqn:?
  | |- match ?r with Ok _ => _ | Raise _ => _ end => destruct r eqn:?
  | |- if ?b then _ else _ => destruct b eqn:?
  | |- wp (let _ := _ in _) _ _ => cbv zeta
  end.

Ltac wp_run := repeat (wp_step; simpl).

(** [objects_get] returns a row exactly when the row is the only match. *)
Section objects_get.
Context {A : Type} (cond : A -> bool).
Implicit Types table : gmap Z A.

Lemma filter_singleton_iff table k row :
  filter (fun r : Z * A => cond r.2 = true) table = {[ k := row ]}
  <-> matches_one cond table k row.
Proof.
  split.
  - intros Hf. unfold matches_one.
    assert (Hk : filter (fun r : Z * A => cond r.2 = true) table !! k = Some row)
      by (rewrite Hf; apply lookup_singleton_eq).
    apply map_lookup_filter_Some in Hk as [Hk Hc]. repeat split; [done..|].
    intros k' row' Hk' Hc'.
    assert (Hin : filter (fun r : Z * A => cond r.2 = true) table !! k' = Some row')
      by (apply map_lookup_filter_Some; done).
    rewrite Hf in Hin. apply lookup_singleton_Some in Hin. by destruct Hin.
  - intros (Hk & Hc & Huniq). apply map_eq. intros i.
    destruct (decide (i = k)) as [->|Hne].
    + rewrite lookup_singleton_eq. by apply map_lookup_filter_Some.
    + rewrite lookup_singleton_ne by done.
      apply map_lookup_filter_None. right. intros row' Hi Hc'.
      simpl in Hc'. apply Hne. eauto.
Qed.

Lemma objects_get_Ok table k row :
  objects_get cond table = Ok (k, row) <-> matches_one cond table k row.
Proof.
  rewrite <- filter_singleton_iff. unfold objects_get. split.
  - destruct (map_to_list _) as [|r [|??]] eqn:Hl; try done.
    intros [= ->]. apply map_to_list_inj. rewrite Hl.
    by rewrite map_to_list_singleton.
  - intros ->. by rewrite map_to_list_singleton.
Qed.

Lemma objects_get_insert table k row row' :
  objects_get cond table = Ok (k, row) -> cond row' = true ->
  objects_get cond (<[k := row']> table) = Ok (k, row').
Proof.
  rewrite !objects_get_Ok. intros (Hk & Hc & Huniq) Hc'.
  split; [apply lookup_insert_eq|]. split; [done|].
  intros k' r. destruct (decide (k' = k)) as [->|Hne]; [done|].
  rewrite lookup_insert_ne by done. eauto.
Qed.
End objects_get.

(* ===================================================================== *)
(** ** The event processor *)
(* ===================================================================== *)

Section event_processor.
Context `{PyRuntime}.

(** Whatever happens in the [try] block, the type and the payload of the
    event are left alone, and a normal exit leaves a terminal status. *)
Lemma dispatch_post now id fr :
  wp (dispatch now id)
     (fun fr' r =>
        type (event fr') = type (event fr)
        /\ payload (event fr') = payload (event fr)
        /\ match r with
           | Ok _ => status (event fr') = Status.PROCESSED
                     \/ status (event fr') = Status.ERROR
           | Raise _ => True
           end) fr.
Proof. unfold dispatch. wp_run; auto. Qed.

(** The shape of [process_stripe_event] once the event is found. *)
Lemma process_stripe_event_unfold now id st ev :
  events st !! id = Some ev ->
  process_stripe_event now id st =
  let out := try_finally
               (try_except (dispatch now id) is_Exception (on_exception id))
               (finally_save id) (entry_frame id st ev) in
  (db out.1, out.2).
Proof.
  intros Hev. unfold process_stripe_event, mbind, M_bind, bind. simpl.
  rewrite Hev. unfold with_frame, entry_frame.
  by destruct (try_finally _ _ _).
Qed.

(** C1.  For an event that is in the table, [process_stripe_event] returns
    normally; the event record is saved with status PROCESSED or ERROR, its
    type and payload untouched; and when the dispatch raised an exception
    [e], whatever it is, the saved status is ERROR and the saved diagnostic
    is the text of [e]'s traceback. *)
Theorem process_stripe_event_never_raises now id st ev :
  events st !! id = Some ev ->
  let out := process_stripe_event now id st in
  out.2 = Ok tt
  /\ exists ev',
       events out.1 !! id = Some ev'
       /\ type ev' = type ev /\ payload ev' = payload ev
       /\ (status ev' = Status.PROCESSED \/ status ev' = Status.ERROR)
       /\ forall e, (dispatch now id (entry_frame id st ev)).2 = Raise e ->
                    status ev' = Status.ERROR /\ info ev' = Some (format_exc e).
Proof.
  intros Hev out. subst out. rewrite (process_stripe_event_unfold _ _ _ _ Hev).
  pose proof (dispatch_post now id (entry_frame id st ev)) as Hpost.
  unfold wp in Hpost. unfold try_finally, try_except.
  destruct (dispatch now id (entry_frame id st ev)) as [fr [[]|e]];
    simpl in *; destruct Hpost as (Hty & Hpl & Hst).
  - split; [done|]. exists (event fr). rewrite lookup_insert_eq.
    split_and!; done.
  - split; [done|]. eexists. rewrite lookup_insert_eq.
    split; [done|]. simpl. split_and!; auto. by intros ? [= <-].
Qed.

(** The lookup of the event itself comes before the [try]: an id that is
    not in the table is the caller's [ObjectDoesNotExist]. *)
Lemma process_stripe_event_missing now id st :
  events st !! id = None ->
  (process_stripe_event now id st).2 = Raise ObjectDoesNotExist.
Proof.
  intros Hev. unfold process_stripe_event, mbind, M_bind, bind. simpl.
  by rewrite Hev.
Qed.

End event_processor.

(** Variants that use the hypotheses at hand: a comparison of literals is
    decided, equations on the same call are merged. *)
Ltac wp_if_literal :=
  lazymatch goal with
  | |- wp (if ?b then _ else _) _ _ =>
      let E := fresh "E" in
      destruct b eqn:E; try (exfalso; clear -E; vm_compute in E; discriminate E)
  end.

Ltac wp_auto := repeat (first [wp_if_literal | wp_step]; simplify_eq/=).

Ltac wp_start :=
  lazymatch goal with
  | |- let out := ?m ?s in @?P out =>
      change (wp m (fun s' r => P (s', r)) s); cbv beta
  end.

Section event_kinds.
Context `{PyRuntime}.

(** C9.  An event whose type is none of the recognized ones changes no
    row of the Customer table; the event is saved with status ERROR and a
    diagnostic that names the type. *)
Theorem unrecognized_event_type now id st ev :
  events st !! id = Some ev ->
  type ev ∉ recognized_types ->
  let out := process_stripe_event now id st in
  out.2 = Ok tt
  /\ customers out.1 = customers st
  /\ events out.1 !! id =
       Some {| type := type ev; payload := payload ev; status := Status.ERROR;
               info := Some ("StripeEvent type '" +:+ type ev +:+ "' not recognized.") |}.
Proof.
  intros Hev Hty. wp_start. unfold process_stripe_event, finally_save, on_exception.
  unfold dispatch. wp_auto.
  all: try (exfalso; apply Hty; unfold recognized_types;
            repeat match goal with
                   | E : String.eqb _ _ = true |- _ => apply String.eqb_eq in E; rewrite E
                   | E : _ || _ = true |- _ => apply orb_true_iff in E; destruct E
                   end; set_solver).
  by rewrite lookup_insert_eq.
Qed.

(** C3.  A renewal event ([invoice.paid]) whose payload carries an
    invoice with a billing reason:
    - when the reason is ["subscription_cycle"], the subscription reference
      matches one Customer and the payload carries the new period end, that
      Customer's row is saved with [current_period_end] equal to the new
      period end and every other field as it was, and no other row changes;
    - with any other reason no row of the Customer table changes, and the
      event notes that no action was taken;
    in both cases the processor returns normally and the event is saved
    with status PROCESSED. *)
Theorem renewal_updates_period_end now id st ev invoice reason :
  events st !! id = Some ev ->
  type ev = "invoice.paid" ->
  event_object (payload ev) invoice ->
  getitem invoice "billing_reason" = Ok reason ->
  let out := process_stripe_event now id st in
  (forall sub k c t,
      eq_str reason "subscription_cycle" = true ->
      getitem invoice "subscription" = Ok (JStr sub) ->
      objects_get (by_subscription (JStr sub)) (customers st) = Ok (k, c) ->
      invoice_period_end invoice t ->
      out.2 = Ok tt
      /\ customers out.1 =
           <[k := {| customer_id := customer_id c;
                     subscription_id := subscription_id c;
                     payment_state := payment_state c;
                     current_period_end := Some t;
                     plan := plan c;
                     cc_info := cc_info c |}]> (customers st)
      /\ events out.1 !! id =
           Some {| type := type ev; payload := payload ev; status := Status.PROCESSED;
                   info := info ev |})
  /\ (eq_str reason "subscription_cycle" = false ->
      out.2 = Ok tt
      /\ customers out.1 = customers st
      /\ events out.1 !! id =
           Some {| type := type ev; payload := payload ev; status := Status.PROCESSED;
                   info := Some "Subscription creation webhook. No action was taken." |}).
Proof.
  intros Hev Hty (data & Hdata & Hobj) Hreason out. subst out.
  destruct ev as [ty pl s i]; simpl in *; subst ty. split.
  - intros sub k c t Hcycle Hsub Hget (lines & ld & line & period & ts & ? & ? & ? & ? & ? & ?).
    pose proof Hget as Hone. apply objects_get_Ok in Hone as (Hk & Hc & _).
    assert (Hcons : payment_state_constraint (with_current_period_end (Some t) c) = true).
    { unfold payment_state_constraint, by_subscription, field_exact in *. simpl.
      destruct (subscription_id c); [|done]. apply orb_true_r. }
    enough (let out := process_stripe_event now id st in
      out.2 = Ok tt
      /\ customers out.1 =
           <[k := {| customer_id := customer_id c;
                     subscription_id := subscription_id c;
                     payment_state := payment_state c;
                     current_period_end := Some t;
                     plan := plan c;
                     cc_info := cc_info c |}]> (customers st)
      /\ events out.1 !! id = Some {| type := "invoice.paid"; payload := pl;
                                      status := Status.PROCESSED; info := i |}) by done.
    wp_start. unfold process_stripe_event, finally_save, on_exception, dispatch.
    unfold by_subscription in *. wp_auto; [|congruence].
    by rewrite lookup_insert_eq.
  - intros Hcycle.
    enough (let out := process_stripe_event now id st in
      out.2 = Ok tt /\ customers out.1 = customers st
      /\ events out.1 !! id = Some {| type := "invoice.paid"; payload := pl;
           status := Status.PROCESSED;
           info := Some "Subscription creation webhook. No action was taken." |}) by done.
    wp_start. unfold process_stripe_event, finally_save, on_exception, dispatch.
    wp_auto. by rewrite lookup_insert_eq.
Qed.

Lemma eq_str_true x lit : eq_str x lit = true <-> x = JStr lit.
Proof.
  destruct x; simpl; try (split; [discriminate|congruence]).
  rewrite String.eqb_eq. split; congruence.
Qed.

(** What a subscription status does to the matched customer. *)
Lemma status_constraint sub c :
  by_subscription (JStr sub) c = true ->
  payment_state_constraint (with_payment_state PaymentState.REQUIRES_PAYMENT_METHOD c) = true
  /\ payment_state_constraint
       (with_payment_state PaymentState.OFF (with_subscription_id None c)) = true.
Proof.
  unfold by_subscription, field_exact, payment_state_constraint. simpl.
  destruct (subscription_id c); [|done]. intros _. split; [|done]. apply bool_decide_eq_true. eauto.
Qed.

(** C2.  A subscription status-changed event (either wire type) whose
    subscription reference matches one Customer:
    - status ["past_due"] saves that Customer's row with [payment_state]
      REQUIRES_PAYMENT_METHOD and every other field as it was;
    - status ["canceled"] or ["incomplete_expired"] saves it with
      [subscription_id] cleared (None), [payment_state] OFF and every other
      field as it was;
    - any other status changes no row, and the event carries the note that
      the status is not actionable;
    in all cases the processor returns normally, no other row changes, and
    the event is saved with status PROCESSED. *)
Theorem subscription_status_changed now id st ev subscription sub k c tag :
  events st !! id = Some ev ->
  type ev = "customer.subscription.updated"
  \/ type ev = "customer.subscription.deleted" ->
  event_object (payload ev) subscription ->
  getitem subscription "id" = Ok (JStr sub) ->
  objects_get (by_subscription (JStr sub)) (customers st) = Ok (k, c) ->
  getitem subscription "status" = Ok tag ->
  let out := process_stripe_event now id st in
  out.2 = Ok tt
  /\ (exists ev', events out.1 !! id = Some ev'
                  /\ type ev' = type ev /\ payload ev' = payload ev
                  /\ status ev' = Status.PROCESSED)
  /\ (eq_str tag "past_due" = true ->
      customers out.1 =
        <[k := {| customer_id := customer_id c;
                  subscription_id := subscription_id c;
                  payment_state := PaymentState.REQUIRES_PAYMENT_METHOD;
                  current_period_end := current_period_end c;
                  plan := plan c;
                  cc_info := cc_info c |}]> (customers st))
  /\ (eq_str tag "canceled" = true \/ eq_str tag "incomplete_expired" = true ->
      customers out.1 =
        <[k := {| customer_id := customer_id c;
                  subscription_id := None;
                  payment_state := PaymentState.OFF;
                  current_period_end := current_period_end c;
                  plan := plan c;
                  cc_info := cc_info c |}]> (customers st))
  /\ (eq_str tag "past_due" = false -> eq_str tag "canceled" = false ->
      eq_str tag "incomplete_expired" = false ->
      customers out.1 = customers st
      /\ events out.1 !! id =
           Some {| type := type ev; payload := payload ev; status := Status.PROCESSED;
                   info := Some "Payload 'status' is not actionable. No action was taken." |}).
Proof.
  intros Hev Hty (data & Hdata & Hobj) Hid Hget Htag.
  pose proof Hget as Hone. apply objects_get_Ok in Hone as (Hk & Hc & _).
  destruct (status_constraint _ _ Hc) as [Hrpm Hoff].
  destruct ev as [ty pl s i]; simpl in Hev, Hty, Hdata.
  wp_start. unfold process_stripe_event, finally_save, on_exception, dispatch.
  unfold by_subscription in *.
  destruct Hty as [-> | ->]; wp_auto; try congruence.
  all: split_and!; try done; try (eexists; rewrite lookup_insert_eq; done).
  all: intros;
    repeat match goal with
           | E : eq_str _ _ = true |- _ => apply eq_str_true in E; subst
           | E : _ \/ _ |- _ => destruct E
           end; try discriminate; try done.
  all: split; [done|]; by rewrite lookup_insert_eq.
Qed.

(** A Customer lookup that fails - no row or several rows for the
    subscription reference of a status-changed event, or for the
    processor-customer reference of a card update - changes no row and is
    recorded on the event as ERROR with the traceback. *)
Lemma failed_lookup_recorded now id st ev obj ref e :
  events st !! id = Some ev ->
  event_object (payload ev) obj ->
  ((type ev = "customer.subscription.updated" \/ type ev = "customer.subscription.deleted")
   /\ getitem obj "id" = Ok ref
   /\ objects_get (by_subscription ref) (customers st) = Raise e)
  \/ (type ev = "payment_method.automatically_updated"
      /\ getitem obj "customer" = Ok ref
      /\ objects_get (by_customer_id ref) (customers st) = Raise e) ->
  let out := process_stripe_event now id st in
  out.2 = Ok tt
  /\ customers out.1 = customers st
  /\ events out.1 !! id =
       Some {| type := type ev; payload := payload ev; status := Status.ERROR;
               info := Some (format_exc e) |}.
Proof.
  intros Hev (data & Hdata & Hobj) Hkind.
  destruct ev as [ty pl s i]; simpl in Hev, Hdata, Hkind.
  wp_start. unfold process_stripe_event, finally_save, on_exception, dispatch.
  unfold by_subscription, by_customer_id in *.
  destruct Hkind as [([-> | ->] & Href & Hget) | (-> & Href & Hget)];
    wp_auto; try congruence.
  all: split_and!; try done; by rewrite lookup_insert_eq.
Qed.

End event_kinds.

Ltac same_result :=
  repeat match goal with
         | H1 : ?x = _, H2 : ?x = _ |- _ => rewrite H1 in H2; simplify_eq/=
         end.

Section idempotence.
Context `{PyRuntime}.

(** The Customer table after an [invoice.paid] event: one row rewritten when
    the payload is a renewal that applies, the same table otherwise. *)
Lemma renewal_customers now id st ev :
  events st !! id = Some ev ->
  type ev = "invoice.paid" ->
  let out := process_stripe_event now id st in
  (customers out.1 = customers st
   /\ forall k c', ~ renewal_of (payload ev) (customers st) k c')
  \/ (exists k c', renewal_of (payload ev) (customers st) k c'
                  /\ customers out.1 = <[k := c']> (customers st)).
Proof.
  intros Hev Hty. destruct ev as [ty pl s i]; simpl in Hev, Hty; subst ty.
  wp_start. unfold process_stripe_event, finally_save, on_exception, dispatch.
  wp_auto.
  all: try (left; split; [done|];
            intros k' c' (inv & rsn & sub & c0 & t
                          & (dat & ? & ?) & ? & ? & ? & ?
                          & (lines & ld & line & period & ts & ? & ? & ? & ? & ? & ?)
                          & ? & ?);
            unfold by_subscription in *; same_result; congruence).
  right. eexists _, _. split; [|done].
  unfold renewal_of, event_object, invoice_period_end, by_subscription.
  eexists _, _, _, _, _. split_and!; eauto 10.
  - match goal with |- _ = Ok (?p.1, ?p.2) => by destruct p end.
  - eexists _, _, _, _, _. split_and!; eauto.
Qed.

Lemma with_current_period_end_twice t c :
  with_current_period_end t (with_current_period_end t c) = with_current_period_end t c.
Proof. by destruct c. Qed.

(** C8.  Processing a renewal event and then processing it again - the
    same record, or another [invoice.paid] record with the same payload -
    leaves the Customer table after the second run equal to the table after
    the first. *)
Theorem renewal_idempotent now now' id id' st ev ev' :
  events st !! id = Some ev ->
  type ev = "invoice.paid" ->
  let st1 := (process_stripe_event now id st).1 in
  events st1 !! id' = Some ev' ->
  type ev' = "invoice.paid" ->
  payload ev' = payload ev ->
  let st2 := (process_stripe_event now' id' st1).1 in
  customers st2 = customers st1.
Proof.
  intros Hev Hty st1 Hev' Hty' Hpl st2. subst st2.
  destruct (renewal_customers now' id' st1 ev' Hev' Hty') as [[Hsame _]|Hsecond];
    [done|].
  destruct Hsecond as (k2 & c2 & Hren2 & ->). rewrite Hpl in Hren2.
  destruct (renewal_customers now id st ev Hev Hty) as [[Hsame Hnot]|Hfirst].
  - fold st1 in Hsame. rewrite Hsame in Hren2. by destruct (Hnot _ _ Hren2).
  - destruct Hfirst as (k1 & c1 & Hren1 & Hst1). fold st1 in Hst1.
    rewrite Hst1 in Hren2 |- *.
    destruct Hren1 as (inv & rsn & sub & c0 & t & (dat & ? & ?) & ? & ? & ? & Hget1
                       & (lines & ld & line & period & ts & ? & ? & ? & ? & ? & ?)
                       & -> & ?).
    destruct Hren2 as (inv' & rsn' & sub' & c0' & t' & (dat' & ? & ?) & ? & ? & ? & Hget2
                       & (lines' & ld' & line' & period' & ts' & ? & ? & ? & ? & ? & ?)
                       & -> & ?).
    same_result.
    assert (Hfound : by_subscription sub (with_current_period_end (Some t) c0) = true).
    { apply objects_get_Ok in Hget1 as (_ & Hc & _). by destruct c0. }
    rewrite (objects_get_insert _ _ _ _ _ Hget1 Hfound) in Hget2. simplify_eq.
    rewrite with_current_period_end_twice. apply insert_insert_eq.
Qed.

End idempotence.

(* ===================================================================== *)
(** ** The command views *)
(* ===================================================================== *)

Lemma truthy_is_Some s : truthy s = true -> is_Some s.
Proof. destruct s; [eauto|done]. Qed.

Section commands.
Context `{rt : PyRuntime} `{svc : Services}.

(** C7.  [CreateSubscriptionAPIView.post], once the serializer accepted the
    request, the customer has a Stripe customer id (its own or a freshly
    created one), Stripe created the subscription and the metadata sync went
    through:
    - remote status ["active"] (with a period end [fromtimestamp] accepts):
      the view answers 201 and the saved Customer has [payment_state] OK and
      [current_period_end] the remote period end;
    - any other remote status: the view raises [ValidationError] ("Payment
      could not be processed..."), and the saved Customer has [payment_state]
      REQUIRES_PAYMENT_METHOD and no [current_period_end];
    in both cases the saved Customer carries the new [subscription_id] and
    the new plan. *)
Theorem create_subscription_outcome req st c pm new_plan cid sub :
  customers st !! user req = Some c ->
  payment_state_constraint c = true ->
  (truthy (customer_id c) = true /\ cid = customer_id c)
  \/ (truthy (customer_id c) = false
      /\ exists id, stripe_create_customer (user req) = Ok (Some id) /\ cid = Some id) ->
  stripe_create_subscription cid pm (price_id new_plan) = Ok sub ->
  stripe_customer_sync_metadata_email (user req) cid = Ok tt ->
  let out := CreateSubscriptionAPIView_post req (Ok (pm, new_plan)) st in
  let saved ps period_end :=
    {| customer_id := cid; subscription_id := Some (sub_id sub);
       payment_state := ps; current_period_end := period_end;
       plan := new_plan; cc_info := cc_info c |} in
  (sub_status sub = "active" ->
   forall t, fromtimestamp (sub_current_period_end sub) = Ok t ->
     out.2 = Ok 201
     /\ customers out.1 = <[user req := saved PaymentState.OK (Some t)]> (customers st))
  /\ (sub_status sub <> "active" ->
      out.2 = Raise (ValidationError
                "Payment could not be processed. Please try again or use another card.")
      /\ customers out.1 =
           <[user req := saved PaymentState.REQUIRES_PAYMENT_METHOD None]> (customers st)).
Proof.
  intros Hc Hcons Hcid Hsub Hsync.
  wp_start. unfold CreateSubscriptionAPIView_post, user_customer.
  assert (Hsaved : forall cid' sid, payment_state_constraint
            (with_subscription_id (Some sid) (with_customer_id cid' c)) = true).
  { intros. unfold payment_state_constraint. simpl.
    apply orb_true_iff. by right. }
  destruct Hcid as [[Hhas ->] | (Hnone & id & Hnew & ->)];
    wp_auto; rewrite ?Hhas, ?Hnone in *; simpl in *; try congruence.
  all: repeat match goal with
              | E : String.eqb _ _ = true |- _ => apply String.eqb_eq in E
              | E : String.eqb _ _ = false |- _ => apply String.eqb_neq in E
              end.
  all: try (exfalso; unfold payment_state_constraint in *; simpl in *;
            congruence).
  all: (split; [intros Hact t Ht | intros Hne]); try congruence.
  all: split; [done|]; same_result; rewrite ?insert_insert_eq; by destruct c.
Qed.

(** C10.  [CureFailedCardAPIView.post] on a customer with a subscription
    and [payment_state] REQUIRES_PAYMENT_METHOD, when replacing the card and
    retrying the invoice raise nothing and the retried invoice's status is
    not ["paid"]: the view answers 201, and the Customer table is what it
    was - [payment_state] is still REQUIRES_PAYMENT_METHOD and
    [current_period_end] is unchanged. *)
Theorem cure_not_paid_returns_success req st c pm invoice invoice_status :
  customers st !! user req = Some c ->
  payment_method_id req = Some pm ->
  truthy (subscription_id c) = true ->
  payment_state c = PaymentState.REQUIRES_PAYMENT_METHOD ->
  stripe_replace_card (customer_id c) (subscription_id c) pm = Ok tt ->
  stripe_retry_latest_invoice (customer_id c) = Ok invoice ->
  getitem invoice "status" = Ok invoice_status ->
  eq_str invoice_status "paid" = false ->
  let out := CureFailedCardAPIView_post req st in
  out.2 = Ok 201
  /\ customers out.1 = customers st
  /\ exists c', customers out.1 !! user req = Some c'
                /\ payment_state c' = PaymentState.REQUIRES_PAYMENT_METHOD
                /\ current_period_end c' = current_period_end c.
Proof.
  intros Hc Hpm Hsub Hps Hcard Hretry Hstatus Hpaid.
  assert (Hcons : payment_state_constraint c = true).
  { unfold payment_state_constraint. apply orb_true_iff. right.
    apply bool_decide_eq_true. by apply truthy_is_Some. }
  wp_start. unfold CureFailedCardAPIView_post, user_customer, has_payment.
  rewrite Hpm. wp_auto; rewrite ?Hsub, ?Hps in *; simpl in *; try congruence.
  rewrite insert_id by done. split_and!; eauto.
Qed.

End commands.

(* ===================================================================== *)
(** ** The payment-state constraint *)
(* ===================================================================== *)

Lemma payment_state_constraint_spec c :
  payment_state_constraint c = true <->
  (payment_state c <> PaymentState.OFF -> is_Some (subscription_id c)).
Proof.
  unfold payment_state_constraint. rewrite orb_true_iff, bool_decide_eq_true.
  destruct (payment_state c); simpl; split; intros Hc; try tauto; try (by left).
  all: try (right; by apply Hc). all: destruct Hc as [Hc|Hc]; done.
Qed.

Lemma store_ok_save st k c :
  store_ok st -> payment_state_constraint c = true ->
  store_ok (set_customers (insert k c) st).
Proof.
  intros Hok Hc k' c'. simpl. destruct (decide (k = k')) as [->|Hne].
  - rewrite lookup_insert_eq. by intros [= <-].
  - rewrite lookup_insert_ne by done. apply Hok.
Qed.

Lemma store_ok_add_log st l msg : store_ok st -> store_ok (add_log l msg st).
Proof. done. Qed.

Lemma store_ok_set_events st f : store_ok st -> store_ok (set_events f st).
Proof. done. Qed.

Create HintDb store_ok.
#[global] Hint Resolve store_ok_save store_ok_add_log store_ok_set_events : store_ok.

Ltac wp_store_ok := wp_run; simpl in *; eauto 20 with store_ok.

Section invariant.
Context `{PyRuntime}.

Lemma process_stripe_event_store_ok now id st :
  store_ok st -> wp (process_stripe_event now id) (fun st' _ => store_ok st') st.
Proof.
  intros Hok.
  unfold process_stripe_event, finally_save, on_exception, dispatch.
  wp_store_ok.
Qed.

Section with_services.
Context `{Services}.

Lemma CreateSubscriptionAPIView_post_store_ok req serializer st :
  store_ok st ->
  wp (CreateSubscriptionAPIView_post req serializer) (fun st' _ => store_ok st') st.
Proof.
  intros Hok. unfold CreateSubscriptionAPIView_post, user_customer, card_error_to_validation.
  wp_store_ok.
Qed.

Lemma CureFailedCardAPIView_post_store_ok req st :
  store_ok st -> wp (CureFailedCardAPIView_post req) (fun st' _ => store_ok st') st.
Proof.
  intros Hok. unfold CureFailedCardAPIView_post, user_customer, card_error_to_validation.
  wp_store_ok.
Qed.

Lemma CancelSubscriptionAPIView_post_store_ok req st :
  store_ok st -> wp (CancelSubscriptionAPIView_post req) (fun st' _ => store_ok st') st.
Proof.
  intros Hok. unfold CancelSubscriptionAPIView_post, cancel_subscription, user_customer.
  wp_store_ok.
Qed.

Lemma ReactivateSubscriptionAPIView_post_store_ok now req st :
  store_ok st ->
  wp (ReactivateSubscriptionAPIView_post now req) (fun st' _ => store_ok st') st.
Proof.
  intros Hok. unfold ReactivateSubscriptionAPIView_post, user_customer.
  wp_store_ok.
Qed.

Lemma ReplaceCardAPIView_post_store_ok req st :
  store_ok st -> wp (ReplaceCardAPIView_post req) (fun st' _ => store_ok st') st.
Proof.
  intros Hok. unfold ReplaceCardAPIView_post, user_customer, card_error_to_validation.
  wp_store_ok.
Qed.
End with_services.

Lemma step_store_ok st st' : store_ok st -> step st st' -> store_ok st'.
Proof.
  intros Hok [inst|now id|svc req ser|svc req|svc req|svc now req|svc req].
  - unfold Customer_save. destruct (payment_state_constraint inst.2) eqn:Hc; simpl;
      eauto with store_ok.
  - by apply process_stripe_event_store_ok.
  - by apply CreateSubscriptionAPIView_post_store_ok.
  - by apply CureFailedCardAPIView_post_store_ok.
  - by apply CancelSubscriptionAPIView_post_store_ok.
  - by apply ReactivateSubscriptionAPIView_post_store_ok.
  - by apply ReplaceCardAPIView_post_store_ok.
Qed.

(** C6.  Starting from a database whose Customer rows satisfy the
    constraint, after any number of units of work (writes through the
    storage layer, processed events, commands; successful or not) every
    Customer whose [payment_state] is not OFF has a [subscription_id]; and
    in any such database, saving a Customer whose [payment_state] is not OFF
    and whose [subscription_id] is absent is rejected with [IntegrityError]
    and changes nothing. *)
Theorem payment_state_invariant st st' :
  store_ok st ->
  rtc step st st' ->
  (forall k c, customers st' !! k = Some c ->
               payment_state c <> PaymentState.OFF -> is_Some (subscription_id c))
  /\ (forall inst, payment_state inst.2 <> PaymentState.OFF ->
                   subscription_id inst.2 = None ->
                   Customer_save inst st' = (st', Raise IntegrityError)).
Proof.
  intros Hok Hsteps.
  assert (Hok' : store_ok st').
  { induction Hsteps as [|st1 st2 st3 Hstep _ IH]; [done|].
    apply IH. by eapply step_store_ok. }
  split.
  - intros k c Hk. apply payment_state_constraint_spec. by eapply Hok'.
  - intros inst Hps Hsub. unfold Customer_save.
    destruct (payment_state_constraint inst.2) eqn:Hc; [|done].
    apply payment_state_constraint_spec in Hc; [|done].
    rewrite Hsub in Hc. by destruct Hc.
Qed.

End invariant.

(* ===================================================================== *)
(** ** The derived state and the limits *)
(* ===================================================================== *)

Lemma state_table_labels : Forall (fun r => label r ∈ state_labels) state_table.
Proof. unfold state_table, state_labels. repeat constructor; simpl; set_solver. Qed.

Lemma unknown_not_label : "unknown" ∉ state_labels.
Proof. apply (bool_decide_unpack _). by vm_compute. Qed.

Lemma state_of_table c now :
  (exists r, r ∈ state_table /\ applies r c now = true /\ state c now = label r)
  \/ ((forall r, r ∈ state_table -> applies r c now = false) /\ state c now = "unknown").
Proof.
  unfold state. destruct (List.find _ _) as [r|] eqn:Hfind.
  - left. apply List.find_some in Hfind as [Hin Happ].
    exists r. by rewrite list_elem_of_In.
  - right. split; [|done]. intros r Hin. rewrite list_elem_of_In in Hin.
    by apply (List.find_none _ _ Hfind).
Qed.

(** C4.  [Customer.state] is a function of the customer's attributes and the
    clock, defined for every plan type, payment state, period end and
    subscription reference: it yields exactly one value, which is one of the
    eleven state labels or ["unknown"]. *)
Theorem state_total c now :
  exists! l, state c now = l /\ (l ∈ state_labels \/ l = "unknown").
Proof.
  exists (state c now). split; [|by intros l [<- _]].
  split; [done|]. destruct (state_of_table c now) as [(r & Hin & _ & ->)|[_ ->]].
  - left. pose proof state_table_labels as Hall.
    rewrite Forall_forall in Hall. by apply Hall.
  - by right.
Qed.

(** ["unknown"] is the label exactly when no row of the table applies. *)
Lemma state_unknown_iff c now :
  state c now = "unknown" <-> forall r, r ∈ state_table -> applies r c now = false.
Proof.
  split.
  - intros Hu r Hin. destruct (state_of_table c now) as [(r' & Hin' & _ & Hl)|[Hnone _]];
      [|by apply Hnone].
    exfalso. rewrite Hu in Hl. pose proof state_table_labels as Hall.
    rewrite Forall_forall in Hall. specialize (Hall _ Hin'). rewrite <- Hl in Hall.
    by apply unknown_not_label.
  - intros Hnone. destruct (state_of_table c now) as [(r & Hin & Happ & _)|[_ ->]];
      [|done].
    rewrite (Hnone _ Hin) in Happ. done.
Qed.

(** [ProfileView.state_note] has an answer for every customer; for the
    catch-all label it is the contact-support note. *)
Lemma state_note_unknown `{PyRuntime} c now :
  state c now = "unknown" -> state_note now c = SUPPORT_NOTE.
Proof. intros Hu. unfold state_note. by rewrite Hu. Qed.

Lemma lapsed_spec c now : lapsed c now = true <-> plan_expired c now.
Proof.
  unfold lapsed, plan_expired, absent, expired.
  destruct (plan_type (plan c)), (current_period_end c) as [t|]; simpl;
    rewrite ?Z.leb_le; split; intros Hl; try done.
  all: try (destruct Hl as [[? ?]|[? ?]]; try done).
  all: try (destruct H0 as [?|(t' & ? & ?)]; simplify_eq; done).
  all: try (destruct H0 as (t' & ? & ?); simplify_eq; done).
  all: try (right; split; [done|]; eauto; done).
  all: try (left; split; [done|]; eauto; done).
Qed.

(** C5.  [Customer.get_limit]:
    - raises when no Limit has the name;
    - otherwise returns the PlanLimit value of the effective plan for that
      name when there is one, and the Limit's default when there is none;
    - the effective plan is the FREE_DEFAULT plan when the customer's plan is
      expired (PAID_PUBLIC with the period end absent or passed, FREE_PRIVATE
      with the period end present and passed) and the customer's own plan
      otherwise - in particular for a FREE_PRIVATE plan without a period
      end. *)
Theorem get_limit_resolution st c limit_name now :
  (limits st !! limit_name = None ->
   get_limit st c limit_name now = Raise ObjectDoesNotExist)
  /\ (forall default value,
        limits st !! limit_name = Some default ->
        plan_limits st !! (effective_plan st c now, limit_name) = Some value ->
        get_limit st c limit_name now = Ok value)
  /\ (forall default,
        limits st !! limit_name = Some default ->
        plan_limits st !! (effective_plan st c now, limit_name) = None ->
        get_limit st c limit_name now = Ok default)
  /\ (plan_expired c now -> effective_plan st c now = free_default st)
  /\ (~ plan_expired c now -> effective_plan st c now = plan_pk (plan c))
  /\ (plan_type (plan c) = PlanType.PAID_PUBLIC -> current_period_end c = None ->
      plan_expired c now)
  /\ (plan_type (plan c) = PlanType.FREE_PRIVATE -> current_period_end c = None ->
      ~ plan_expired c now).
Proof.
  unfold get_limit, effective_plan. split_and!.
  - by intros ->.
  - by intros d v -> ->.
  - by intros d -> ->.
  - intros Hexp. apply lapsed_spec in Hexp. by rewrite Hexp.
  - intros Hexp. rewrite <- lapsed_spec in Hexp. by destruct (lapsed c now).
  - intros Hty Hnone. left. eauto.
  - intros Hty Hnone [[Hty' _]|[_ (t & Ht & _)]]; congruence.
Qed.

(* ===================================================================== *)
(** ** The test suite's scenarios, run on the embedding *)
(* ===================================================================== *)

Module Scenarios.
Import Tests.
#[local] Existing Instance runtime.

(** [test_unrecognized_type] *)
Example test_unrecognized_type :
  status <$> events (run paying_customer "bad.type" JNull) !! "evt_test"
  = Some Status.ERROR.
Proof. by vm_compute. Qed.

(** [test_webhook_renewed] *)
Example test_webhook_renewed :
  let st := run paying_customer "invoice.paid" (payload_of renewed_invoice) in
  status <$> events st !! "evt_test" = Some Status.PROCESSED
  /\ current_period_end <$> customers st !! 1 = Some (Some (NOW + 30 * DAY))
  /\ (fun c => state c NOW) <$> customers st !! 1 = Some "paid.paying".
Proof. by vm_compute. Qed.

(** [test_webhook_payment_failure] *)
Example test_webhook_payment_failure :
  let st := run paying_customer "customer.subscription.updated"
              (payload_of (subscription_object "past_due")) in
  status <$> events st !! "evt_test" = Some Status.PROCESSED
  /\ payment_state <$> customers st !! 1 = Some PaymentState.REQUIRES_PAYMENT_METHOD
  /\ (fun c => state c NOW) <$> customers st !! 1
     = Some "paid.past_due.requires_payment_method".
Proof. by vm_compute. Qed.

(** [test_webhook_payment_failure_permanent] *)
Example test_webhook_payment_failure_permanent :
  let st := run paying_customer "customer.subscription.deleted"
              (payload_of (subscription_object "canceled")) in
  status <$> events st !! "evt_test" = Some Status.PROCESSED
  /\ payment_state <$> customers st !! 1 = Some PaymentState.OFF
  /\ subscription_id <$> customers st !! 1 = Some None
  /\ (fun c => state c NOW) <$> customers st !! 1 = Some "paid.canceled"
  /\ (fun c => state c (NOW + 6 * DAY)) <$> customers st !! 1
     = Some "free_default.canceled".
Proof. by vm_compute. Qed.

(** [test_webhook_incomplete_expired], as far as the stored attributes go.
    (The test goes on to expect the label [free_default.canceled.incomplete];
    the table of section 4.1 asks for a subscription reference in that row,
    and the event has just cleared it.) *)
Example test_webhook_incomplete_expired :
  let c := with_payment_state PaymentState.REQUIRES_PAYMENT_METHOD
             (with_current_period_end None paying_customer) in
  let st := run c "customer.subscription.updated"
              (payload_of (subscription_object "incomplete_expired")) in
  state c NOW = "free_default.incomplete.requires_payment_method"
  /\ status <$> events st !! "evt_test" = Some Status.PROCESSED
  /\ payment_state <$> customers st !! 1 = Some PaymentState.OFF
  /\ subscription_id <$> customers st !! 1 = Some None.
Proof. by vm_compute. Qed.

(** [test_webhook_payment_method_automatically_updated] *)
Example test_webhook_payment_method_automatically_updated :
  let st := run paying_customer "payment_method.automatically_updated"
              (payload_of (JObj [ ("customer", JStr "cus_1"); ("card", new_card) ])) in
  status <$> events st !! "evt_test" = Some Status.PROCESSED
  /\ cc_info <$> customers st !! 1 = Some new_card
  /\ payment_state <$> customers st !! 1 = Some PaymentState.OK.
Proof. by vm_compute. Qed.

(** A lookup that finds no Customer ends in ERROR, with the traceback as
    the diagnostic. *)
Example unknown_subscription :
  let st := run new_customer "customer.subscription.updated"
              (payload_of (subscription_object "past_due")) in
  events st !! "evt_test"
  = Some {| type := "customer.subscription.updated";
            payload := payload_of (subscription_object "past_due");
            status := Status.ERROR;
            info := Some (format_exc ObjectDoesNotExist) |}
  /\ customers st !! 1 = Some new_customer.
Proof. by vm_compute. Qed.

(** So does a write the storage layer rejects: a status change addressed to
    the null subscription reference. *)
Example rejected_write :
  let st := run new_customer "customer.subscription.updated"
              (payload_of (JObj [ ("id", JNull); ("status", JStr "past_due") ])) in
  status <$> events st !! "evt_test" = Some Status.ERROR
  /\ info <$> events st !! "evt_test" = Some (Some (format_exc IntegrityError))
  /\ customers st !! 1 = Some new_customer.
Proof. by vm_compute. Qed.

(** A first invoice is noted and nothing else. *)
Example subscription_creation_invoice :
  let st := run paying_customer "invoice.paid" (payload_of created_invoice) in
  events st !! "evt_test"
  = Some {| type := "invoice.paid"; payload := payload_of created_invoice;
            status := Status.PROCESSED;
            info := Some "Subscription creation webhook. No action was taken." |}
  /\ customers st !! 1 = Some paying_customer.
Proof. by vm_compute. Qed.

(** [test_create_subscription] *)
Example test_create_subscription :
  let out := CreateSubscriptionAPIView_post (svc := accepting) (post (Some "pm_1"))
               (Ok ("pm_1", paid_plan)) (webhook_store new_customer "" JNull) in
  out.2 = Ok 201
  /\ customers out.1 !! 1
     = Some {| customer_id := Some "cus_new"; subscription_id := Some "sub_paid";
               payment_state := PaymentState.OK;
               current_period_end := Some (NOW + 30 * DAY);
               plan := paid_plan; cc_info := JNull |}
  /\ (fun c => state c NOW) <$> customers out.1 !! 1 = Some "paid.paying".
Proof. by vm_compute. Qed.

(** [test_create_subscription_failed] *)
Example test_create_subscription_failed :
  let out := CreateSubscriptionAPIView_post (svc := declining) (post (Some "pm_1"))
               (Ok ("pm_1", paid_plan)) (webhook_store new_customer "" JNull) in
  out.2 = Raise (ValidationError
            "Payment could not be processed. Please try again or use another card.")
  /\ plan <$> customers out.1 !! 1 = Some paid_plan
  /\ payment_state <$> customers out.1 !! 1 = Some PaymentState.REQUIRES_PAYMENT_METHOD
  /\ current_period_end <$> customers out.1 !! 1 = Some None
  /\ subscription_id <$> customers out.1 !! 1 = Some (Some "sub_paid")
  /\ (fun c => state c NOW) <$> customers out.1 !! 1
     = Some "free_default.incomplete.requires_payment_method".
Proof. by vm_compute. Qed.

(** [test_create_subscription_failed_cure] *)
Example test_create_subscription_failed_cure :
  let out := CureFailedCardAPIView_post (svc := accepting) (post (Some "abc"))
               (webhook_store declined_customer "" JNull) in
  out.2 = Ok 201
  /\ payment_state <$> customers out.1 !! 1 = Some PaymentState.OK
  /\ subscription_id <$> customers out.1 !! 1 = Some (Some "sub_1")
  /\ current_period_end <$> customers out.1 !! 1 = Some (Some (NOW + 30 * DAY))
  /\ (fun c => state c NOW) <$> customers out.1 !! 1 = Some "paid.paying".
Proof. by vm_compute. Qed.

(** [test_cancel_subscription] and [test_cancel_subscription_error] *)
Example test_cancel_subscription :
  let out := CancelSubscriptionAPIView_post (svc := accepting) (post None)
               (webhook_store paying_customer "" JNull) in
  let again := CancelSubscriptionAPIView_post (svc := accepting) (post None) out.1 in
  out.2 = Ok 201
  /\ customers out.1 !! 1 = Some (with_payment_state PaymentState.OFF paying_customer)
  /\ (fun c => state c NOW) <$> customers out.1 !! 1 = Some "paid.will_cancel"
  /\ again.2 = Raise (ValidationError "No active subscription to cancel.")
  /\ customers again.1 = customers out.1.
Proof. by vm_compute. Qed.

(** [test_reactivate_subscription] and [test_reactivate_subscription_error] *)
Example test_reactivate_subscription :
  let will_cancel := with_payment_state PaymentState.OFF paying_customer in
  let out := ReactivateSubscriptionAPIView_post (svc := accepting) NOW (post None)
               (webhook_store will_cancel "" JNull) in
  let late := ReactivateSubscriptionAPIView_post (svc := accepting) (NOW + 6 * DAY)
                (post None) (webhook_store will_cancel "" JNull) in
  let active := ReactivateSubscriptionAPIView_post (svc := accepting) NOW (post None)
                  (webhook_store paying_customer "" JNull) in
  out.2 = Ok 201
  /\ customers out.1 !! 1 = Some paying_customer
  /\ late.2 = Raise (ValidationError "You cannot reactivate this subscription.")
  /\ active.2 = Raise (ValidationError "You cannot reactivate this subscription.").
Proof. by vm_compute. Qed.

(** [test_replace_card], as far as the view itself goes. *)
Example test_replace_card :
  let out := ReplaceCardAPIView_post (svc := accepting) (post (Some "abc"))
               (webhook_store paying_customer "" JNull) in
  let none := ReplaceCardAPIView_post (svc := accepting) (post (Some "abc"))
                (webhook_store new_customer "" JNull) in
  out.2 = Ok 201
  /\ payment_state <$> customers out.1 !! 1 = Some PaymentState.OK
  /\ none.2 = Raise (ValidationError "You cannot replace card for this customer.").
Proof. by vm_compute. Qed.

(** [CustomerAPITest]: the labels of the serializer tests. *)
Example test_customer_states :
  state new_customer NOW = "free_default.new"
  /\ state paying_customer NOW = "paid.paying"
  /\ state (with_payment_state PaymentState.OFF
              (with_current_period_end (Some (NOW - DAY)) paying_customer)) NOW
     = "free_default.canceled"
  /\ state (with_payment_state PaymentState.REQUIRES_PAYMENT_METHOD
              (with_current_period_end None paying_customer)) NOW
     = "free_default.incomplete.requires_payment_method"
  /\ state (with_current_period_end (Some (NOW - DAY))
              (with_plan private_plan new_customer)) NOW
     = "free_default.canceled"
  /\ state (with_plan private_plan new_customer) NOW = "free_private.indefinite"
  /\ state (with_payment_state PaymentState.OFF paying_customer) NOW
     = "paid.will_cancel".
Proof. by vm_compute. Qed.

(** [LimitTest] *)
Example test_get_limit :
  get_limit (limit_store paying_customer) paying_customer "Limit 1" NOW = Ok 1
  /\ get_limit (limit_store paying_customer) paying_customer "Limit 2" NOW = Ok 2.
Proof. by vm_compute. Qed.

Example test_get_limit_default :
  get_limit (limit_store paying_customer) paying_customer "Limit 3" NOW = Ok 97.
Proof. by vm_compute. Qed.

Example test_get_limit_nonexist :
  get_limit (limit_store paying_customer) paying_customer "Bad Limit" NOW
  = Raise ObjectDoesNotExist.
Proof. by vm_compute. Qed.

Example test_get_limit_expired_plan :
  let c := with_current_period_end (Some (NOW - 60)) paying_customer in
  get_limit (limit_store c) c "Limit 1" NOW = Ok 50
  /\ get_limit (limit_store c) c "Limit 2" NOW = Ok 98.
Proof. by vm_compute. Qed.

Example test_get_limit_paid_plan_with_no_date :
  let c := with_current_period_end None paying_customer in
  get_limit (limit_store c) c "Limit 1" NOW = Ok 50.
Proof. by vm_compute. Qed.

Example test_get_limit_free_private_plan_expired :
  let c := with_current_period_end (Some (NOW - 10 * DAY))
             (with_plan private_plan new_customer) in
  get_limit (limit_store c) c "Limit 1" NOW = Ok 50
  /\ get_limit (limit_store c) c "Limit 2" NOW = Ok 98.
Proof. by vm_compute. Qed.

Example test_get_limit_free_private_plan_with_no_date :
  let c := with_plan private_plan new_customer in
  get_limit (limit_store c) c "Limit 1" NOW = Ok 0.
Proof. by vm_compute. Qed.

End Scenarios.

(* ===================================================================== *)
(** ** The theorems at the test suite's inputs *)
(* ===================================================================== *)

Module Witness.
Import Tests.
#[local] Existing Instance runtime.

Lemma an_event c ty pl :
  events (webhook_store c ty pl) !! "evt_test"
  = Some {| type := ty; payload := pl; status := Status.NEW; info := None |}.
Proof. reflexivity. Defined.

Lemma object_of obj : event_object (payload_of obj) obj.
Proof. eexists. split; reflexivity. Defined.

(** An [invoice.paid] event without a payload body: the [KeyError] ends in
    a saved ERROR status. *)
Lemma process_stripe_event_never_raises_witness :
  let st := webhook_store paying_customer "invoice.paid" (JObj []) in
  let out := process_stripe_event NOW "evt_test" st in
  out.2 = Ok tt
  /\ exists ev',
       events out.1 !! "evt_test" = Some ev'
       /\ type ev' = "invoice.paid" /\ payload ev' = JObj []
       /\ (status ev' = Status.PROCESSED \/ status ev' = Status.ERROR)
       /\ forall e,
            (dispatch NOW "evt_test"
               (entry_frame "evt_test" st
                  {| type := "invoice.paid"; payload := JObj [];
                     status := Status.NEW; info := None |})).2 = Raise e ->
            status ev' = Status.ERROR /\ info ev' = Some (format_exc e).
Proof.
  exact (process_stripe_event_never_raises NOW "evt_test"
           (webhook_store paying_customer "invoice.paid" (JObj [])) _
           (an_event _ _ _)).
Defined.

Lemma unrecognized_event_type_witness :
  let st := webhook_store paying_customer "bad.type" JNull in
  let out := process_stripe_event NOW "evt_test" st in
  out.2 = Ok tt
  /\ customers out.1 = customers st
  /\ events out.1 !! "evt_test" =
       Some {| type := "bad.type"; payload := JNull; status := Status.ERROR;
               info := Some "StripeEvent type 'bad.type' not recognized." |}.
Proof.
  apply (unrecognized_event_type NOW "evt_test"
           (webhook_store paying_customer "bad.type" JNull) _ (an_event _ _ _)).
  apply (bool_decide_unpack _). vm_compute. exact I.
Defined.

Lemma renewal_updates_period_end_witness :
  let st := webhook_store paying_customer "invoice.paid" (payload_of renewed_invoice) in
  let out := process_stripe_event NOW "evt_test" st in
  out.2 = Ok tt
  /\ customers out.1 =
       <[1 := {| customer_id := Some "cus_1"; subscription_id := Some "sub";
                 payment_state := PaymentState.OK;
                 current_period_end := Some (NOW + 30 * DAY);
                 plan := paid_plan; cc_info := JNull |}]> (customers st).
Proof.
  destruct (renewal_updates_period_end NOW "evt_test"
              (webhook_store paying_customer "invoice.paid" (payload_of renewed_invoice))
              _ renewed_invoice (JStr "subscription_cycle")
              (an_event _ _ _) eq_refl (object_of _) eq_refl) as [Hcycle _].
  destruct (Hcycle "sub" 1 paying_customer (NOW + 30 * DAY)) as (Hret & Hcust & _).
  - reflexivity.
  - reflexivity.
  - vm_compute. reflexivity.
  - do 5 eexists. repeat split; reflexivity.
  - split; [exact Hret | exact Hcust].
Defined.

Lemma subscription_status_changed_witness :
  let st := webhook_store paying_customer "customer.subscription.deleted"
              (payload_of (subscription_object "canceled")) in
  let out := process_stripe_event NOW "evt_test" st in
  out.2 = Ok tt
  /\ customers out.1 =
       <[1 := {| customer_id := Some "cus_1"; subscription_id := None;
                 payment_state := PaymentState.OFF;
                 current_period_end := Some (NOW + 5 * DAY);
                 plan := paid_plan; cc_info := JNull |}]> (customers st).
Proof.
  destruct (subscription_status_changed NOW "evt_test"
              (webhook_store paying_customer "customer.subscription.deleted"
                 (payload_of (subscription_object "canceled")))
              _ (subscription_object "canceled") "sub" 1 paying_customer (JStr "canceled")
              (an_event _ _ _) (or_intror eq_refl) (object_of _) eq_refl)
    as (Hret & _ & _ & Hcanceled & _).
  - vm_compute. reflexivity.
  - reflexivity.
  - split; [exact Hret | apply Hcanceled; left; reflexivity].
Defined.

Lemma renewal_idempotent_witness :
  let st := webhook_store paying_customer "invoice.paid" (payload_of renewed_invoice) in
  let st1 := (process_stripe_event NOW "evt_test" st).1 in
  let st2 := (process_stripe_event (NOW + DAY) "evt_test" st1).1 in
  customers st2 = customers st1.
Proof.
  apply (renewal_idempotent NOW (NOW + DAY) "evt_test" "evt_test"
           (webhook_store paying_customer "invoice.paid" (payload_of renewed_invoice))
           _ (with_status Status.PROCESSED
                {| type := "invoice.paid"; payload := payload_of renewed_invoice;
                   status := Status.NEW; info := None |})
           (an_event _ _ _) eq_refl).
  - vm_compute. reflexivity.
  - reflexivity.
  - reflexivity.
Defined.

Lemma payment_state_invariant_witness :
  let st := webhook_store paying_customer "customer.subscription.deleted"
              (payload_of (subscription_object "canceled")) in
  let st' := (process_stripe_event NOW "evt_test" st).1 in
  (forall k c, customers st' !! k = Some c ->
               payment_state c <> PaymentState.OFF -> is_Some (subscription_id c))
  /\ (forall inst, payment_state inst.2 <> PaymentState.OFF ->
                   subscription_id inst.2 = None ->
                   Customer_save inst st' = (st', Raise IntegrityError)).
Proof.
  apply (payment_state_invariant
           (webhook_store paying_customer "customer.subscription.deleted"
              (payload_of (subscription_object "canceled")))).
  - apply (bool_decide_unpack _). vm_compute. exact I.
  - apply rtc_once. apply step_event.
Defined.

Lemma create_subscription_outcome_witness :
  let st := webhook_store new_customer "" JNull in
  let out := CreateSubscriptionAPIView_post (svc := declining) (post (Some "pm_1"))
               (Ok ("pm_1", paid_plan)) st in
  out.2 = Raise (ValidationError
            "Payment could not be processed. Please try again or use another card.")
  /\ customers out.1 =
       <[1 := {| customer_id := Some "cus_new"; subscription_id := Some "sub_paid";
                 payment_state := PaymentState.REQUIRES_PAYMENT_METHOD;
                 current_period_end := None; plan := paid_plan; cc_info := JNull |}]>
         (customers st).
Proof.
  destruct (create_subscription_outcome (svc := declining) (post (Some "pm_1"))
              (webhook_store new_customer "" JNull) new_customer "pm_1" paid_plan
              (Some "cus_new")
              {| sub_id := "sub_paid"; sub_status := "incomplete";
                 sub_current_period_end := JNull |}) as [_ Hdeclined].
  - reflexivity.
  - reflexivity.
  - right. split; [reflexivity|]. exists "cus_new". split; reflexivity.
  - reflexivity.
  - reflexivity.
  - apply Hdeclined. discriminate.
Defined.

Lemma cure_not_paid_returns_success_witness :
  let st := webhook_store declined_customer "" JNull in
  let out := CureFailedCardAPIView_post (svc := declining) (post (Some "abc")) st in
  out.2 = Ok 201
  /\ customers out.1 = customers st
  /\ exists c', customers out.1 !! 1 = Some c'
                /\ payment_state c' = PaymentState.REQUIRES_PAYMENT_METHOD
                /\ current_period_end c' = Some (NOW + 5 * DAY).
Proof.
  apply (cure_not_paid_returns_success (svc := declining) (post (Some "abc"))
           (webhook_store declined_customer "" JNull) declined_customer "abc"
           (JObj [ ("status", JStr "open") ]) (JStr "open")); reflexivity.
Defined.

End Witness.
